(** * arc_hacks: the geodatabase inventory and the layer metadata report

    A shallow embedding of [geodatabase_catalog.py] and [layer_metadata.py].
    Both scripts are sequential batch jobs over an external library (arcpy),
    the file system, the clock and the console.  Everything the scripts ask
    of the outside is a field of a [world] record; everything they change
    (console output, written files, the arcpy workspace pointer) is a field
    of a state record threaded through a small state-and-exception monad. *)

From Stdlib Require Import Ascii String.
From stdpp Require Import base option list gmap strings pretty sorting.

Open Scope string_scope.
Open Scope list_scope.

(** ** Python control flow: exceptions over a mutable state *)

Module Py.

(** The exceptions the two scripts can meet.  [str(e)] is what the metadata
    script interpolates into its inline error notes. *)
Inductive exn : Type :=
| IndexError (msg : string)
| AttributeError (msg : string)
| OSError (msg : string)
| ExecuteError (msg : string).

Definition str_of_exn (e : exn) : string :=
  match e with
  | IndexError m | AttributeError m | OSError m | ExecuteError m => m
  end.

Inductive result (A : Type) : Type :=
| Ok (a : A)
| Raise (e : exn).
Arguments Ok {A} a.
Arguments Raise {A} e.

Definition is_ok {A} (r : result A) : bool :=
  match r with Ok _ => true | Raise _ => false end.

(** A statement: runs on a state, returns or raises, and leaves a state.
    Mutations made before a raise persist, as in Python. *)
Definition M (S A : Type) : Type := S -> result A * S.

Definition ret {S A} (a : A) : M S A := fun s => (Ok a, s).

Definition bind {S A B} (m : M S A) (k : A -> M S B) : M S B :=
  fun s => match m s with
           | (Ok a, s') => k a s'
           | (Raise e, s') => (Raise e, s')
           end.

Definition raise {S A} (e : exn) : M S A := fun s => (Raise e, s).

(** [try: m  except Exception as e: h e] *)
Definition try_except {S A} (m : M S A) (h : exn -> M S A) : M S A :=
  fun s => match m s with
           | (Ok a, s') => (Ok a, s')
           | (Raise e, s') => h e s'
           end.

(** An outcome handed over by the outside world. *)
Definition lift {S A} (r : result A) : M S A := fun s => (r, s).

Definition modify {S} (f : S -> S) : M S unit := fun s => (Ok tt, f s).

Definition gets {S A} (f : S -> A) : M S A := fun s => (Ok (f s), s).

(** [for x in l: body x] *)
Fixpoint for_each {S A} (l : list A) (body : A -> M S unit) : M S unit :=
  match l with
  | [] => ret tt
  | x :: l' => bind (body x) (fun _ => for_each l' body)
  end.

(** [for x in e: body x], where evaluating [e] is a statement of its own. *)
Definition for_in {S A} (e : M S (list A)) (body : A -> M S unit) : M S unit :=
  bind e (fun l => for_each l body).

(** [l[i]] on a Python list. *)
Definition index {S A} (l : list A) (i : nat) : M S A :=
  match l !! i with
  | Some a => ret a
  | None => raise (IndexError "list index out of range")
  end.

End Py.

Import Py.

Declare Scope py_scope.
Delimit Scope py_scope with py.
Notation "'let*' x ':=' m 'in' k" := (bind m (fun x => k))
  (at level 10, x name, m at level 100, k at level 200) : py_scope.
Notation "m '>>' k" := (bind m (fun _ => k))
  (at level 90, right associativity) : py_scope.
Open Scope py_scope.

(** ** Text helpers *)

Definition nl : string := String "010"%char EmptyString.

Definition concat_str (l : list string) : string := foldr String.append EmptyString l.

(** Iterating a [str] yields its characters as one-character strings. *)
Fixpoint chars (s : string) : list string :=
  match s with
  | EmptyString => []
  | String c s' => String c EmptyString :: chars s'
  end.

(** [needle in hay] *)
Fixpoint contains (needle hay : string) : bool :=
  String.prefix needle hay ||
  match hay with
  | EmptyString => false
  | String _ hay' => contains needle hay'
  end.

(** [str.lower], on the ASCII letters. *)
Definition lower_ascii (c : ascii) : ascii :=
  let n := Ascii.nat_of_ascii c in
  if (65 <=? n)%nat && (n <=? 90)%nat then Ascii.ascii_of_nat (n + 32) else c.

Fixpoint lower (s : string) : string :=
  match s with
  | EmptyString => EmptyString
  | String c s' => String (lower_ascii c) (lower s')
  end.

(** [s.endswith(suffix)]: some tail of [s] is [suffix]. *)
Fixpoint endswith (s suffix : string) : bool :=
  bool_decide (s = suffix) ||
  match s with
  | EmptyString => false
  | String _ s' => endswith s' suffix
  end.

(** ** layer_metadata.py *)

Module LayerMetadata.

(** *** What the script reads from the outside *)

(** [os.stat] on a layer file, with the two timestamps already rendered by
    [strftime('%Y-%m-%d %H:%M:%S')] and the size by [{:.2f}] in KB: both
    renderings belong to the Python runtime. *)
Record file_stats : Type := {
  st_created : string;
  st_modified : string;
  st_size_kb : string;
}.

(** One entry of [desc["fields"]], each attribute as [str] renders it. *)
Record field : Type := {
  field_name : string;
  field_type : string;
  field_length : string;
  field_aliasName : string;
  field_isNullable : string;
}.

Record layer_properties : Type := {
  description : string;
  visible : string;
  minScale : string;
  maxScale : string;
  transparency : string;
  (** [None] when [layer.supports("DEFINITIONQUERY")] is false *)
  definitionQuery : option string;
}.

(** [sym.renderer.symbol]; [None] in an option field: [hasattr] is false. *)
Record symbol : Type := {
  symbol_type : string;
  symbol_color : option string;
  symbol_size : option string;
}.

Record renderer : Type := {
  renderer_type : string;
  renderer_symbol : option symbol;
  renderer_fields : option string;
  renderer_classBreakCount : option string;
  (** [len(sym.renderer.groups)] in decimal *)
  renderer_groups : option string;
}.

(** A layer of a layer file.  Each attribute read can raise. *)
Record layer : Type := {
  supports_DATASOURCE : result bool;
  layer_name : result string;
  layer_dataSource : result string;
  (** everything the properties block reads, or the first exception in it *)
  layer_props : result layer_properties;
  (** the symbology block: [None] when [layer.supports("SYMBOLOGY")] is false *)
  layer_symbology : result (option renderer);
}.

Record layer_file : Type := {
  listLayers : result (list layer);
}.

Record world : Type := {
  (** the two configuration constants, edited before a run *)
  DIRECTORY_PATH : string;
  ADMIN_DIRECTORY_PATH : string;
  (** [glob.glob(os.path.join(DIRECTORY_PATH, '*.lyrx'))] *)
  glob_lyrx : list string;
  (** [arcpy.mp.LayerFile(file_path)] *)
  LayerFile : string -> result layer_file;
  os_stat : string -> result file_stats;
  (** [os.path.exists(p)] then [os.stat(p)] rendered: [Ok None] when the
      path does not exist *)
  source_stat : string -> result (option (string * string));
  (** [arcpy.da.Describe(p)["fields"]] with every attribute read *)
  da_Describe_fields : string -> result (list field);
  os_path_basename : string -> string;
  os_path_dirname : string -> string;
  os_path_join : string -> string -> string;
  (** [os.getenv('USERNAME')] *)
  USERNAME : option string;
  (** the n-th reading of [datetime.now()] in the run, rendered by
      [strftime('%Y-%m-%d %H:%M:%S')] *)
  now : nat -> string;
}.

Definition OUTPUT_FILENAME : string := "transportation_layer_metadata.txt".

(** *** extract_layer_metadata *)

(** An element of [data_list]: a text section, or the list [contents]
    inserted at index 0. *)
Inductive item : Type :=
| Str (s : string)
| Lst (l : list string).

(** [for data in x] *)
Definition iter (x : item) : list string :=
  match x with
  | Str s => chars s
  | Lst l => l
  end.

(** The locals of [extract_layer_metadata] and the console. *)
Record xstate : Type := {
  data_list : list item;
  contents : list string;
  printed : list string;
}.

Definition data_list_append (s : string) : M xstate unit :=
  modify (fun x => {| data_list := data_list x ++ [Str s];
                      contents := contents x; printed := printed x |}).

Definition contents_append (s : string) : M xstate unit :=
  modify (fun x => {| data_list := data_list x;
                      contents := contents x ++ [s]; printed := printed x |}).

Definition xprint (s : string) : M xstate unit :=
  modify (fun x => {| data_list := data_list x;
                      contents := contents x; printed := printed x ++ [s] |}).

Definition contents_header : string :=
  "### Table of Contents " +:+ nl +:+ nl.

Definition file_info (w : world) (file_path : string) (st : file_stats) : string :=
  "### File Information:" +:+ nl +:+ nl +:+
  "- File Path: " +:+ file_path +:+ nl +:+
  "- File Name: " +:+ os_path_basename w file_path +:+ nl +:+
  "- Created: " +:+ st_created st +:+ nl +:+
  "- Last Modified: " +:+ st_modified st +:+ nl +:+
  "- File Size: " +:+ st_size_kb st +:+ " KB" +:+ nl +:+ nl.

Definition toc_entry (file_path : string) : string :=
  "- " +:+ file_path +:+ nl.

Definition layer_info (name src : string) : string :=
  "## Layer: " +:+ name +:+ nl +:+ nl +:+
  "Source: " +:+ src +:+ nl +:+ nl.

Definition source_info (created modified : string) : string :=
  "Data Source Metadata:" +:+ nl +:+ nl +:+
  "- Created: " +:+ created +:+ nl +:+
  "- Last Modified: " +:+ modified +:+ nl +:+ nl.

Definition field_entry (f : field) : string :=
  "- " +:+ field_name f +:+ nl +:+
  "  - Type: " +:+ field_type f +:+ nl +:+
  "  - Length: " +:+ field_length f +:+ nl +:+
  "  - Alias: " +:+ field_aliasName f +:+ nl +:+
  "  - Nullable: " +:+ field_isNullable f +:+ nl +:+ nl.

Definition field_info (fields : list field) : string :=
  fold_left (fun acc f => acc +:+ field_entry f) fields
            ("### Fields:" +:+ nl +:+ nl).

(** [s += t if c] *)
Definition opt_line (label : string) (o : option string) (s : string) : string :=
  match o with
  | Some v => s +:+ label +:+ v +:+ nl
  | None => s
  end.

Definition layer_props_text (p : layer_properties) : string :=
  let s := "### Layer Properties:" +:+ nl +:+ nl in
  let s := s +:+ "- Description: " +:+ description p +:+ nl in
  let s := s +:+ "- Visible: " +:+ visible p +:+ nl in
  let s := s +:+ "- Min Scale: " +:+ minScale p +:+ nl in
  let s := s +:+ "- Max Scale: " +:+ maxScale p +:+ nl in
  let s := s +:+ "- Transparency: " +:+ transparency p +:+ "%" +:+ nl in
  let s := opt_line "- Definition Query: " (definitionQuery p) s in
  s +:+ nl.

Definition symbol_text (sy : symbol) (s : string) : string :=
  let s := s +:+ "- Symbol Type: " +:+ symbol_type sy +:+ nl in
  let s := opt_line "- Color: RGB" (symbol_color sy) s in
  opt_line "- Size: " (symbol_size sy) s.

Definition symbology_text (o : option renderer) : string :=
  let s := "### Symbology:" +:+ nl +:+ nl in
  let s :=
    match o with
    | Some r =>
        let s := s +:+ "- Renderer Type: " +:+ renderer_type r +:+ nl in
        let s := match renderer_symbol r with
                 | Some sy => symbol_text sy s
                 | None => s
                 end in
        let s := opt_line "- Classification Field(s): " (renderer_fields r) s in
        let s := opt_line "- Class Breaks: " (renderer_classBreakCount r) s in
        opt_line "- Number of Groups: " (renderer_groups r) s
    | None => s
    end in
  s +:+ nl.

(** The body of [for layer in layer_file.listLayers():]. *)
Definition layer_body (w : world) (l : layer) : M xstate unit :=
  let* has_source := lift (supports_DATASOURCE l) in
  if has_source : bool then
    let* name := lift (layer_name l) in
    let* src := lift (layer_dataSource l) in
    data_list_append (layer_info name src) >>
    try_except
      (let* st := lift (source_stat w src) in
       match st with
       | Some (created, modified) => data_list_append (source_info created modified)
       | None => ret tt
       end)
      (fun _ => ret tt) >>
    try_except
      (let* fields := lift (da_Describe_fields w src) in
       data_list_append (field_info fields))
      (fun e => data_list_append ("Error reading fields: " +:+ str_of_exn e +:+ nl +:+ nl)) >>
    try_except
      (let* p := lift (layer_props l) in
       data_list_append (layer_props_text p))
      (fun e => data_list_append
                  ("Error reading layer properties: " +:+ str_of_exn e +:+ nl +:+ nl)) >>
    try_except
      (let* r := lift (layer_symbology l) in
       data_list_append (symbology_text r))
      (fun e => data_list_append
                  ("Error reading symbology: " +:+ str_of_exn e +:+ nl +:+ nl))
  else ret tt.

(** The body of [for file_path in lyrx_files:], with its [try]. *)
Definition file_body (w : world) (file_path : string) : M xstate unit :=
  try_except
    (let* lf := lift (LayerFile w file_path) in
     let* st := lift (os_stat w file_path) in
     data_list_append (file_info w file_path st) >>
     contents_append (toc_entry file_path) >>
     let* layers := lift (listLayers lf) in
     for_each layers (layer_body w))
    (fun e => xprint ("Error processing " +:+ file_path +:+ ": " +:+ str_of_exn e)).

Definition extract_state (w : world) (lyrx_files : list string) : xstate :=
  snd (for_each lyrx_files (file_body w)
         {| data_list := []; contents := [contents_header]; printed := [] |}).

(** Returns [data_list] after [data_list.insert(0, contents)], and the
    lines printed on the way. *)
Definition extract_layer_metadata (w : world) (lyrx_files : list string)
  : list item * list string :=
  let x := extract_state w lyrx_files in
  (Lst (contents x) :: data_list x, printed x).

(** *** write_metadata_to_file and main *)

Record state : Type := {
  stdout : list string;
  (** path to content *)
  fs : gmap string string;
  (** how many times the clock has been read *)
  clock_reads : nat;
}.

Definition print (line : string) : M state unit :=
  modify (fun s => {| stdout := stdout s ++ [line]; fs := fs s;
                      clock_reads := clock_reads s |}).

(** [dt.datetime.now().strftime('%Y-%m-%d %H:%M:%S')] *)
Definition datetime_now (w : world) : M state string :=
  fun s => (Ok (now w (clock_reads s)),
            {| stdout := stdout s; fs := fs s; clock_reads := S (clock_reads s) |}).

(** [open(path, 'w')]: the file is created or truncated.  The file system
    of the model is a map from path strings to contents that accepts every
    write: a run in which [open] itself raises (a missing directory, a
    path that cannot be written) is outside it. *)
Definition open_w (path : string) : M state unit :=
  modify (fun s => {| stdout := stdout s; fs := <[path := EmptyString]> (fs s);
                      clock_reads := clock_reads s |}).

(** [md_file.write(data)] *)
Definition md_write (path data : string) : M state unit :=
  modify (fun s => {| stdout := stdout s;
                      fs := <[path := default EmptyString (fs s !! path) +:+ data]> (fs s);
                      clock_reads := clock_reads s |}).

Definition write_metadata_to_file (w : world) (data_list : list item)
    (output_file : string) : M state unit :=
  let* current_time := datetime_now w in
  open_w output_file >>
  md_write output_file ("# Layer Metadata Report" +:+ nl +:+ nl) >>
  md_write output_file ("**Generated:** " +:+ current_time +:+ nl +:+ nl) >>
  md_write output_file ("**Script Version:** 1.0" +:+ nl +:+ nl) >>
  md_write output_file
    ("**Author:** " +:+ default "Unknown" (USERNAME w) +:+ nl +:+ nl) >>
  md_write output_file ("**Source Directory:** " +:+ DIRECTORY_PATH w +:+ nl +:+ nl) >>
  md_write output_file ("---" +:+ nl +:+ nl) >>
  let* toc := index data_list 0 in
  for_each (iter toc) (md_write output_file) >>
  md_write output_file ("---" +:+ nl +:+ nl) >>
  let* body := index data_list 1 in
  for_each (iter body) (md_write output_file) >>
  md_write output_file (nl +:+ "---" +:+ nl +:+ nl) >>
  md_write output_file ("**End of Report**" +:+ nl +:+ nl) >>
  md_write output_file ("Report completed at: " +:+ current_time +:+ nl).

Definition output_file (w : world) : string :=
  os_path_join w (os_path_dirname w (DIRECTORY_PATH w)) OUTPUT_FILENAME.

Definition admin_output_file (w : world) : string :=
  os_path_join w (ADMIN_DIRECTORY_PATH w) OUTPUT_FILENAME.

Definition main (w : world) : M state unit :=
  let lyrx_files := glob_lyrx w in
  match lyrx_files with
  | [] => print ("No .lyrx files found in " +:+ DIRECTORY_PATH w)
  | _ :: _ =>
      print ("Found " +:+ pretty (length lyrx_files) +:+ " layer files to process") >>
      let '(data_list, lines) := extract_layer_metadata w lyrx_files in
      for_each lines print >>
      write_metadata_to_file w data_list (output_file w) >>
      write_metadata_to_file w data_list (admin_output_file w) >>
      print ("Metadata written to: " +:+ output_file w)
  end.

(** *** What a call of the writer leaves behind *)

(** The state once [path] holds [content]. *)
Definition written (path content : string) (s : state) : state :=
  {| stdout := stdout s; fs := <[path := content]> (fs s);
     clock_reads := clock_reads s |}.

(** The state once [lines] have been printed. *)
Definition echoed (lines : list string) (s : state) : state :=
  {| stdout := stdout s ++ lines; fs := fs s; clock_reads := clock_reads s |}.

Definition found_line (w : world) : string :=
  "Found " +:+ pretty (length (glob_lyrx w)) +:+ " layer files to process".

(** The state once the clock has been read. *)
Definition tick (s : state) : state :=
  {| stdout := stdout s; fs := fs s; clock_reads := S (clock_reads s) |}.

Definition report_top : string :=
  "# Layer Metadata Report" +:+ nl +:+ nl +:+ "**Generated:** ".

Definition report_middle (w : world) (toc body : item) : string :=
  nl +:+ nl +:+
  "**Script Version:** 1.0" +:+ nl +:+ nl +:+
  "**Author:** " +:+ default "Unknown" (USERNAME w) +:+ nl +:+ nl +:+
  "**Source Directory:** " +:+ DIRECTORY_PATH w +:+ nl +:+ nl +:+
  "---" +:+ nl +:+ nl +:+
  concat_str (iter toc) +:+
  "---" +:+ nl +:+ nl +:+
  concat_str (iter body) +:+
  nl +:+ "---" +:+ nl +:+ nl +:+
  "**End of Report**" +:+ nl +:+ nl +:+
  "Report completed at: ".

(** The bytes of a complete report whose clock reading was [t]: the first
    two elements of [data_list] between header and footer. *)
Definition report (w : world) (toc body : item) (t : string) : string :=
  report_top +:+ t +:+ report_middle w toc body +:+ t +:+ nl.

(** The bytes in the file when the writer stops at [data_list[1]]. *)
Definition truncated_report (w : world) (toc : item) (t : string) : string :=
  report_top +:+ t +:+ nl +:+ nl +:+
  "**Script Version:** 1.0" +:+ nl +:+ nl +:+
  "**Author:** " +:+ default "Unknown" (USERNAME w) +:+ nl +:+ nl +:+
  "**Source Directory:** " +:+ DIRECTORY_PATH w +:+ nl +:+ nl +:+
  "---" +:+ nl +:+ nl +:+
  concat_str (iter toc) +:+
  "---" +:+ nl +:+ nl.

End LayerMetadata.

(** ** geodatabase_catalog.py *)

Module Catalog.

(** *** What the script reads from the outside *)

(** [desc.spatialReference]: reading its [name] can raise. *)
Record spatial_reference : Type := {
  sr_name : result string;
}.

(** The object [arcpy.Describe] returns.  [name] is always there; the other
    three are read with [getattr(.., default)] or behind [hasattr], so they
    are optional. *)
Record describe : Type := {
  d_name : string;
  d_datasetType : option string;
  d_shapeType : option string;
  (** [None]: no such attribute, or a falsy one *)
  d_spatialReference : option spatial_reference;
}.

Inductive listing : Type :=
| ListFeatureClasses
| ListDatasets      (* the feature datasets: the call passes the type "Feature" *)
| ListTables
| ListRasters.

Record world : Type := {
  (** the two configuration constants, edited before a run *)
  ROOT_DIR : string;
  OUTPUT_EXCEL : string;
  (** [os.walk(root)]: the triples (dirpath, dirnames, filenames) *)
  os_walk : string -> list (string * list string * list string);
  os_path_join : string -> string -> string;
  os_path_getmtime : string -> result Z;
  (** [datetime.datetime.fromtimestamp(t).strftime("%Y-%m-%d %H:%M:%S")] *)
  strftime : Z -> result string;
  (** [arcpy.Describe(dataset_path)] *)
  Describe : string -> result describe;
  (** [int(arcpy.management.GetCount(dataset_path)[0])] *)
  GetCount : string -> result Z;
  (** a listing call made while [arcpy.env.workspace] has the given value;
      arcpy returns a list or [None] *)
  arcpy_list : listing -> option string -> result (option (list string));
}.

(** *** The records *)

Record row : Type := {
  GDB_Name : string;
  GDB_Path : string;
  GDB_Last_Modified : option string;
  Feature_Dataset : option string;
  Dataset_Name : string;
  Dataset_Path : string;
  Dataset_Type : string;
  Geometry_Type : option string;
  Feature_Count : option Z;
  Spatial_Reference : option string;
}.

(** What the script does to arcpy, in order. *)
Inductive event : Type :=
| SetWorkspace (ws : option string)
| Listing (k : listing) (ws : option string).

Record state : Type := {
  (** [arcpy.env.workspace] *)
  workspace : option string;
  (** the local [records] of [inventory_geodatabases] *)
  records : list row;
  stdout : list string;
  trace : list event;
  (** spreadsheets written: path to rows *)
  files : gmap string (list row);
}.

Definition print (line : string) : M state unit :=
  modify (fun s => {| workspace := workspace s; records := records s;
                      stdout := stdout s ++ [line]; trace := trace s;
                      files := files s |}).

(** [arcpy.env.workspace = ws] *)
Definition set_workspace (ws : option string) : M state unit :=
  modify (fun s => {| workspace := ws; records := records s;
                      stdout := stdout s; trace := trace s ++ [SetWorkspace ws];
                      files := files s |}).

Definition set_records (l : list row) : M state unit :=
  modify (fun s => {| workspace := workspace s; records := l;
                      stdout := stdout s; trace := trace s; files := files s |}).

(** [records.append(r)] *)
Definition records_append (r : row) : M state unit :=
  modify (fun s => {| workspace := workspace s; records := records s ++ [r];
                      stdout := stdout s; trace := trace s; files := files s |}).

(** [arcpy.ListX() or []], answered for the workspace in force. *)
Definition arcpy_List (w : world) (k : listing) : M state (list string) :=
  fun s =>
    let s' := {| workspace := workspace s; records := records s;
                 stdout := stdout s; trace := trace s ++ [Listing k (workspace s)];
                 files := files s |} in
    match arcpy_list w k (workspace s) with
    | Ok r => (Ok (default [] r), s')
    | Raise e => (Raise e, s')
    end.

(** [df.to_excel(path, index=False)]: the sheet is kept as the rows of the
    frame, before pandas turns them into cells; every path accepts the
    write, so a run in which the writer raises is outside the model. *)
Definition to_excel (path : string) (df : list row) : M state unit :=
  modify (fun s => {| workspace := workspace s; records := records s;
                      stdout := stdout s; trace := trace s;
                      files := <[path := df]> (files s) |}).

(** *** Helper functions *)

Definition format_timestamp (w : world) (timestamp : Z) : option string :=
  match strftime w timestamp with
  | Ok s => Some s
  | Raise _ => None
  end.

Definition describe_dataset (w : world)
    (gdb_name gdb_path : string) (gdb_last_modified : option string)
    (dataset_path : string) (feature_dataset : option string) : M state row :=
  let* desc := lift (Describe w dataset_path) in
  let dataset_type := default "Unknown" (d_datasetType desc) in
  let geometry_type :=
    if decide (dataset_type = "FeatureClass") then d_shapeType desc else None in
  let* feature_count :=
    try_except
      (if decide (dataset_type = "FeatureClass" \/ dataset_type = "Table")
       then let* n := lift (GetCount w dataset_path) in ret (Some n)
       else ret None)
      (fun _ => ret None) in
  let* spatial_reference :=
    try_except
      (match d_spatialReference desc with
       | Some sr => let* n := lift (sr_name sr) in ret (Some n)
       | None => ret None
       end)
      (fun _ => ret None) in
  ret {| GDB_Name := gdb_name;
         GDB_Path := gdb_path;
         GDB_Last_Modified := gdb_last_modified;
         Feature_Dataset := feature_dataset;
         Dataset_Name := d_name desc;
         Dataset_Path := dataset_path;
         Dataset_Type := dataset_type;
         Geometry_Type := geometry_type;
         Feature_Count := feature_count;
         Spatial_Reference := spatial_reference |}.

(** *** inventory_geodatabases *)

(** [records.append(describe_dataset(...))] for one listed name. *)
Definition append_dataset (w : world)
    (gdb_name gdb_path : string) (gdb_last_modified : option string)
    (parent : string) (feature_dataset : option string) (name : string)
  : M state unit :=
  let* r := describe_dataset w gdb_name gdb_path gdb_last_modified
              (os_path_join w parent name) feature_dataset in
  records_append r.

(** [dirname.lower().endswith(".gdb")] *)
Definition is_gdb_name (dirname : string) : bool :=
  endswith (lower dirname) ".gdb".

(** The body of the inner loop, for a directory that passed the suffix test. *)
Definition gdb_body (w : world) (dirpath dirname : string) : M state unit :=
  let gdb_path := os_path_join w dirpath dirname in
  print ("Scanning geodatabase: " +:+ gdb_path) >>
  let gdb_last_modified :=
    match os_path_getmtime w gdb_path with
    | Ok t => format_timestamp w t
    | Raise _ => None
    end in
  let add := append_dataset w dirname gdb_path gdb_last_modified in
  set_workspace (Some gdb_path) >>
  for_in (arcpy_List w ListFeatureClasses) (add gdb_path None) >>
  for_in (arcpy_List w ListDatasets) (fun fds =>
    let fds_path := os_path_join w gdb_path fds in
    set_workspace (Some fds_path) >>
    for_in (arcpy_List w ListFeatureClasses) (add fds_path (Some fds)) >>
    set_workspace (Some gdb_path)) >>
  for_in (arcpy_List w ListTables) (add gdb_path None) >>
  for_in (arcpy_List w ListRasters) (add gdb_path None) >>
  set_workspace None.

Definition walk_body (w : world) (entry : string * list string * list string)
  : M state unit :=
  let '(dirpath, dirnames, _) := entry in
  for_each dirnames (fun dirname =>
    if negb (is_gdb_name dirname) then ret tt
    else gdb_body w dirpath dirname).

Definition inventory_geodatabases (w : world) (root_dir : string)
  : M state (list row) :=
  set_records [] >>
  for_each (os_walk w root_dir) (walk_body w) >>
  gets records.

(** *** main *)

(** The three sort columns of [df.sort_values(by=[...])]. *)
Definition row_key (r : row) : string * option string * string :=
  (GDB_Name r, Feature_Dataset r, Dataset_Name r).

(** Ascending order on a column with missing values: pandas puts them last
    ([na_position='last']). *)
Definition opt_le (a b : option string) : Prop :=
  match a, b with
  | Some x, Some y => String.le x y
  | _, None => True
  | None, Some _ => False
  end.

(** Columns compared left to right. *)
Definition key_le (a b : string * option string * string) : Prop :=
  let '(g1, f1, n1) := a in
  let '(g2, f2, n2) := b in
  String.le g1 g2 /\ (g1 = g2 -> opt_le f1 f2 /\ (f1 = f2 -> String.le n1 n2)).

Definition row_le (a b : row) : Prop := key_le (row_key a) (row_key b).

#[global] Instance opt_le_dec : RelDecision opt_le.
Proof. intros [x|] [y|]; simpl; apply _. Defined.

#[global] Instance key_le_dec : RelDecision key_le.
Proof. intros [[g1 f1] n1] [[g2 f2] n2]; simpl; apply _. Defined.

#[global] Instance row_le_dec : RelDecision row_le.
Proof. intros a b; unfold row_le; apply _. Defined.

(** Where a row goes among rows already in order: in front of the first one
    that does not come before it, and so in front of the rows of its own
    key. *)
Fixpoint insert_row (r : row) (df : list row) : list row :=
  match df with
  | [] => [r]
  | r' :: df' => if decide (row_le r r') then r :: df else r' :: insert_row r df'
  end.

(** [df.sort_values(by=["GDB_Name", "Feature_Dataset", "Dataset_Name"])]:
    pandas sorts on the three columns and leaves rows of the same key in
    the order of the frame; here as the insertion sort that does so, each
    row being put in front of the sorted rows that followed it. *)
Definition sort_values (df : list row) : list row := foldr insert_row [] df.

Definition main (w : world) : M state unit :=
  print ("Starting geodatabase inventory for: " +:+ ROOT_DIR w) >>
  let* records := inventory_geodatabases w (ROOT_DIR w) in
  match records with
  | [] => print "No datasets found."
  | _ :: _ =>
      let df := sort_values records in
      print ("Writing inventory to Excel: " +:+ OUTPUT_EXCEL w) >>
      to_excel (OUTPUT_EXCEL w) df >>
      print "Inventory complete."
  end.

(** *** Notions used in the statements *)

(** The state once [r] has been appended to [records]. *)
Definition appended (r : row) (s : state) : state :=
  {| workspace := workspace s; records := records s ++ [r];
     stdout := stdout s; trace := trace s; files := files s |}.

Definition starting_line (w : world) : string :=
  "Starting geodatabase inventory for: " +:+ ROOT_DIR w.

(** The walk as [main] runs it: after its first line of output. *)
Definition walk (w : world) (s : state) : result (list row) * state :=
  inventory_geodatabases w (ROOT_DIR w) (snd (print (starting_line w) s)).

Definition scanning_line (gdb_path : string) : string :=
  "Scanning geodatabase: " +:+ gdb_path.

(** The paths of the directory entries of the walk that carry the suffix,
    in the order of the walk. *)
Definition entry_candidates (w : world)
    (entry : string * list string * list string) : list string :=
  let '(dirpath, dirnames, _) := entry in
  os_path_join w dirpath <$> filter (fun d => Is_true (is_gdb_name d)) dirnames.

Definition candidates (w : world) (root_dir : string) : list string :=
  os_walk w root_dir ≫= entry_candidates w.

(** [m] never changes the component [f] of the state. *)
Definition keeps {A B} (f : state -> B) (m : M state A) : Prop :=
  forall s, f (snd (m s)) = f s.

(** The same world with the file names of the walk blanked. *)
Definition ignore_files (w : world) : world :=
  {| ROOT_DIR := ROOT_DIR w; OUTPUT_EXCEL := OUTPUT_EXCEL w;
     os_walk r :=
       map (fun entry : string * list string * list string =>
              let '(dirpath, dirnames, _) := entry in (dirpath, dirnames, []))
           (os_walk w r);
     os_path_join := os_path_join w;
     os_path_getmtime := os_path_getmtime w; strftime := strftime w;
     Describe := Describe w; GetCount := GetCount w; arcpy_list := arcpy_list w |}.

(** What one feature dataset adds to the interaction with arcpy. *)
Definition fds_trace (w : world) (gdb_path fds : string) : list event :=
  [ SetWorkspace (Some (os_path_join w gdb_path fds));
    Listing ListFeatureClasses (Some (os_path_join w gdb_path fds));
    SetWorkspace (Some gdb_path) ].

(** The interaction with arcpy of a completed inventory of the geodatabase
    at [gdb_path] with the feature datasets [fdss]. *)
Definition gdb_trace (w : world) (gdb_path : string) (fdss : list string)
  : list event :=
  [ SetWorkspace (Some gdb_path);
    Listing ListFeatureClasses (Some gdb_path);
    Listing ListDatasets (Some gdb_path) ]
  ++ (fdss ≫= fds_trace w gdb_path)
  ++ [ Listing ListTables (Some gdb_path);
       Listing ListRasters (Some gdb_path);
       SetWorkspace None ].

(** The feature datasets arcpy lists in the geodatabase at [gdb_path]. *)
Definition feature_datasets (w : world) (gdb_path : string) : list string :=
  match arcpy_list w ListDatasets (Some gdb_path) with
  | Ok o => default [] o
  | Raise _ => []
  end.

(** From [s], the statement [m] appends to the log [f] a prefix of [full];
    when it completes, all of [full], and [Q] holds afterwards. *)
Definition logs {A B} (f : state -> list B) (m : M state A) (s : state)
    (full : list B) (Q : state -> Prop) : Prop :=
  exists evs,
    f (snd (m s)) = f s ++ evs /\
    evs `prefix_of` full /\
    (is_ok (fst (m s)) = true -> evs = full /\ Q (snd (m s))).

(** How the statement [m] ends from [s]: [Qok] holds of the state in which
    it completes, [Qraise] of the state in which an exception leaves it. *)
Definition ends {A} (m : M state A) (s : state) (Qok Qraise : state -> Prop)
  : Prop :=
  match m s with
  | (Ok _, s') => Qok s'
  | (Raise _, s') => Qraise s'
  end.

(** The names a listing call returns with the workspace at [ws]. *)
Definition listed (w : world) (k : listing) (ws : string) : list string :=
  match arcpy_list w k (Some ws) with
  | Ok o => default [] o
  | Raise _ => []
  end.

(** arcpy answers the listing [k] made at [ws] and the describe call for
    each name it returns, the two calls of a listing loop that no [try]
    encloses. *)
Definition listing_answers (w : world) (k : listing) (ws : string) : Prop :=
  is_ok (arcpy_list w k (Some ws)) = true /\
  forall name, name ∈ listed w k ws ->
               is_ok (Describe w (os_path_join w ws name)) = true.

(** arcpy answers every such call of the inventory of the geodatabase at
    [gdb_path]: those of its four listings and those of the listing of each
    feature dataset. *)
Definition inventory_answers (w : world) (gdb_path : string) : Prop :=
  listing_answers w ListFeatureClasses gdb_path /\
  is_ok (arcpy_list w ListDatasets (Some gdb_path)) = true /\
  (forall fds, fds ∈ feature_datasets w gdb_path ->
               listing_answers w ListFeatureClasses (os_path_join w gdb_path fds)) /\
  listing_answers w ListTables gdb_path /\
  listing_answers w ListRasters gdb_path.

(** Where the workspace can be while the geodatabase at [gdb_path] is
    inventoried: at the geodatabase, or at one of its feature datasets. *)
Definition inside (w : world) (gdb_path : string) (ws : option string) : Prop :=
  ws = Some gdb_path \/
  exists fds, fds ∈ feature_datasets w gdb_path /\
              ws = Some (os_path_join w gdb_path fds).

End Catalog.

(** ** Concrete runs used below *)

Module MetadataScenario.
Import LayerMetadata.

Definition stats : file_stats :=
  {| st_created := "2024-05-01 09:00:00";
     st_modified := "2024-05-02 09:30:00";
     st_size_kb := "12.50" |}.

Definition roads : layer :=
  {| supports_DATASOURCE := Ok true;
     layer_name := Ok "roads";
     layer_dataSource := Ok "C:/data/city.gdb/roads";
     layer_props := Raise (AttributeError "metadata");
     layer_symbology := Ok None |}.

(** Two layer files: [a.lyrx] cannot be opened, [b.lyrx] holds one layer.
    The clock ticks between its first and second reading. *)
Definition two_files : world :=
  {| DIRECTORY_PATH := "C:/gis/layers";
     ADMIN_DIRECTORY_PATH := "C:/admin";
     glob_lyrx := ["C:/gis/layers/a.lyrx"; "C:/gis/layers/b.lyrx"];
     LayerFile p :=
       if decide (p = "C:/gis/layers/b.lyrx")
       then Ok {| listLayers := Ok [roads] |}
       else Raise (OSError "not a layer file");
     os_stat _ := Ok stats;
     source_stat _ := Ok None;
     da_Describe_fields _ :=
       Ok [ {| field_name := "OBJECTID"; field_type := "OID"; field_length := "4";
               field_aliasName := "OBJECTID"; field_isNullable := "False" |} ];
     os_path_basename _ := "b.lyrx";
     os_path_dirname _ := "C:/gis";
     os_path_join a b := a +:+ "/" +:+ b;
     USERNAME := Some "gis";
     now n := match n with
              | O => "2024-05-03 10:00:00"
              | S _ => "2024-05-03 10:00:01"
              end |}.

(** The same directory when neither file can be opened. *)
Definition none_opens : world :=
  {| DIRECTORY_PATH := DIRECTORY_PATH two_files;
     ADMIN_DIRECTORY_PATH := ADMIN_DIRECTORY_PATH two_files;
     glob_lyrx := glob_lyrx two_files;
     LayerFile _ := Raise (OSError "not a layer file");
     os_stat := os_stat two_files;
     source_stat := source_stat two_files;
     da_Describe_fields := da_Describe_fields two_files;
     os_path_basename := os_path_basename two_files;
     os_path_dirname := os_path_dirname two_files;
     os_path_join := os_path_join two_files;
     USERNAME := USERNAME two_files;
     now := now two_files |}.

(** The same directory with no layer file in it. *)
Definition no_files : world :=
  {| DIRECTORY_PATH := DIRECTORY_PATH two_files;
     ADMIN_DIRECTORY_PATH := ADMIN_DIRECTORY_PATH two_files;
     glob_lyrx := [];
     LayerFile := LayerFile two_files;
     os_stat := os_stat two_files;
     source_stat := source_stat two_files;
     da_Describe_fields := da_Describe_fields two_files;
     os_path_basename := os_path_basename two_files;
     os_path_dirname := os_path_dirname two_files;
     os_path_join := os_path_join two_files;
     USERNAME := USERNAME two_files;
     now := now two_files |}.

Definition fresh : state := {| stdout := []; fs := ∅; clock_reads := 0 |}.

End MetadataScenario.

Module CatalogScenario.
Import Catalog.

Definition wgs84 : spatial_reference := {| sr_name := Ok "GCS_WGS_1984" |}.

Definition unreadable : spatial_reference :=
  {| sr_name := Raise (ExecuteError "spatial reference") |}.

Definition roads_desc : describe :=
  {| d_name := "roads"; d_datasetType := Some "FeatureClass";
     d_shapeType := Some "Polyline"; d_spatialReference := Some wgs84 |}.

Definition bridges_desc : describe :=
  {| d_name := "bridges"; d_datasetType := Some "FeatureClass";
     d_shapeType := Some "Point"; d_spatialReference := Some unreadable |}.

Definition owners_desc : describe :=
  {| d_name := "owners"; d_datasetType := Some "Table";
     d_shapeType := None; d_spatialReference := None |}.

Definition parcels_desc : describe :=
  {| d_name := "parcels"; d_datasetType := Some "FeatureClass";
     d_shapeType := Some "Polygon"; d_spatialReference := Some wgs84 |}.

Definition describe_city (p : string) : result describe :=
  if decide (p = "D:/gis/a.gdb/roads") then Ok roads_desc
  else if decide (p = "D:/gis/a.gdb/transport/bridges") then Ok bridges_desc
  else if decide (p = "D:/gis/a.gdb/owners") then Ok owners_desc
  else if decide (p = "D:/gis/b.GDB/parcels") then Ok parcels_desc
  else Raise (ExecuteError "does not exist").

Definition list_city (k : listing) (ws : option string)
  : result (option (list string)) :=
  if decide (ws = Some "D:/gis/a.gdb") then
    match k with
    | ListFeatureClasses => Ok (Some ["roads"])
    | ListDatasets => Ok (Some ["transport"])
    | ListTables => Ok (Some ["owners"])
    | ListRasters => Ok None
    end
  else if decide (ws = Some "D:/gis/a.gdb/transport") then
    match k with
    | ListFeatureClasses => Ok (Some ["bridges"])
    | _ => Ok None
    end
  else if decide (ws = Some "D:/gis/b.GDB") then
    match k with
    | ListFeatureClasses => Ok (Some ["parcels"])
    | _ => Ok None
    end
  else Ok None.

(** Two geodatabases, found in the order [b.GDB], [a.gdb]; a plain file
    [fake.gdb] next to them; the row count of [roads] cannot be read. *)
Definition city : world :=
  {| ROOT_DIR := "D:/gis";
     OUTPUT_EXCEL := "D:/out/inventory.xlsx";
     os_walk _ :=
       [ ("D:/gis", ["b.GDB"; "notes"; "a.gdb"], ["readme.txt"; "fake.gdb"]);
         ("D:/gis/b.GDB", [], ["a00000001.gdbtable"]);
         ("D:/gis/notes", [], ["old.gdb"]);
         ("D:/gis/a.gdb", [], ["a00000001.gdbtable"]) ];
     os_path_join a b := a +:+ "/" +:+ b;
     os_path_getmtime _ := Ok 1714550400%Z;
     strftime _ := Ok "2024-05-01 08:00:00";
     Describe := describe_city;
     GetCount p :=
       if decide (p = "D:/gis/a.gdb/roads")
       then Raise (ExecuteError "cannot acquire a lock")
       else Ok 42%Z;
     arcpy_list := list_city |}.

Definition with_Describe (w : world) (f : string -> result describe) : world :=
  {| ROOT_DIR := ROOT_DIR w; OUTPUT_EXCEL := OUTPUT_EXCEL w;
     os_walk := os_walk w; os_path_join := os_path_join w;
     os_path_getmtime := os_path_getmtime w; strftime := strftime w;
     Describe := f; GetCount := GetCount w; arcpy_list := arcpy_list w |}.

Definition with_walk (w : world)
    (f : string -> list (string * list string * list string)) : world :=
  {| ROOT_DIR := ROOT_DIR w; OUTPUT_EXCEL := OUTPUT_EXCEL w;
     os_walk := f; os_path_join := os_path_join w;
     os_path_getmtime := os_path_getmtime w; strftime := strftime w;
     Describe := Describe w; GetCount := GetCount w; arcpy_list := arcpy_list w |}.

(** The same tree when [parcels], the first dataset met, cannot be described. *)
Definition city_broken : world :=
  with_Describe city (fun p =>
    if decide (p = "D:/gis/b.GDB/parcels")
    then Raise (ExecuteError "failed to describe")
    else describe_city p).

(** The same tree when [bridges], inside the feature dataset [transport],
    cannot be described. *)
Definition city_nested_broken : world :=
  with_Describe city (fun p =>
    if decide (p = "D:/gis/a.gdb/transport/bridges")
    then Raise (ExecuteError "failed to describe")
    else describe_city p).

(** A tree without geodatabase folders: only a plain file carries the suffix. *)
Definition no_gdb : world :=
  with_walk city (fun _ =>
    [ ("D:/gis", ["notes"], ["readme.txt"; "fake.gdb"]);
      ("D:/gis/notes", [], ["old.gdb"]) ]).

Definition fresh : state :=
  {| workspace := None; records := []; stdout := []; trace := []; files := ∅ |}.

End CatalogScenario.

(** ** Further notions, for the properties beyond the claims *)

Module MetadataNotions.
Import LayerMetadata.

(** [m] never changes the component [f] of the locals. *)
Definition xkeeps {A B} (f : xstate -> B) (m : M xstate A) : Prop :=
  forall x, f (snd (m x)) = f x.

(** [m] only appends to [data_list]. *)
Definition xgrows {A} (m : M xstate A) : Prop :=
  forall x, data_list x `prefix_of` data_list (snd (m x)).

(** The file gets past [arcpy.mp.LayerFile] and [os.stat]: the two calls
    made before anything is appended for it. *)
Definition opened (w : world) (file_path : string) : bool :=
  is_ok (LayerFile w file_path) && is_ok (os_stat w file_path).

(** The first file of the list that gets that far, with its stats. *)
Fixpoint first_opened (w : world) (files : list string)
  : option (string * file_stats) :=
  match files with
  | [] => None
  | f :: files' =>
      match LayerFile w f, os_stat w f with
      | Ok _, Ok st => Some (f, st)
      | _, _ => first_opened w files'
      end
  end.

(** What each guarded block of the layer loop leaves in [data_list]. *)
Definition source_section (w : world) (src : string) : list item :=
  match source_stat w src with
  | Ok (Some (created, modified)) => [Str (source_info created modified)]
  | Ok None | Raise _ => []
  end.

Definition fields_section (w : world) (src : string) : string :=
  match da_Describe_fields w src with
  | Ok fields => field_info fields
  | Raise e => "Error reading fields: " +:+ str_of_exn e +:+ nl +:+ nl
  end.

Definition props_section (l : layer) : string :=
  match layer_props l with
  | Ok p => layer_props_text p
  | Raise e => "Error reading layer properties: " +:+ str_of_exn e +:+ nl +:+ nl
  end.

Definition symbology_section (l : layer) : string :=
  match layer_symbology l with
  | Ok r => symbology_text r
  | Raise e => "Error reading symbology: " +:+ str_of_exn e +:+ nl +:+ nl
  end.

(** The locals once [new] has been appended to [data_list]. *)
Definition sections_added (new : list item) (x : xstate) : xstate :=
  {| data_list := data_list x ++ new; contents := contents x;
     printed := printed x |}.

Definition error_line (file_path : string) (e : exn) : string :=
  "Error processing " +:+ file_path +:+ ": " +:+ str_of_exn e.

(** The locals once a file has its file information and its line of
    contents. *)
Definition entered (w : world) (file_path : string) (st : file_stats)
    (x : xstate) : xstate :=
  {| data_list := data_list x ++ [Str (file_info w file_path st)];
     contents := contents x ++ [toc_entry file_path];
     printed := printed x |}.

(** The locals once [line] has been printed. *)
Definition reported (line : string) (x : xstate) : xstate :=
  {| data_list := data_list x; contents := contents x;
     printed := printed x ++ [line] |}.

(** The statements of a file's [try] that follow its two appends. *)
Definition layers_part (w : world) (lf : layer_file) : M xstate unit :=
  let* layers := lift (listLayers lf) in for_each layers (layer_body w).

(** The table of contents after the files: the header, then a line for
    each file that was opened. *)
Definition toc_of (w : world) (files : list string) : list string :=
  contents_header :: (toc_entry <$> filter (fun f => Is_true (opened w f)) files).

End MetadataNotions.

Module CatalogNotions.
Import Catalog.

(** [m] only appends to [records]. *)
Definition grows {A} (m : M state A) : Prop :=
  forall s, records s `prefix_of` records (snd (m s)).

(** The modification time recorded for a geodatabase. *)
Definition gdb_last_modified (w : world) (gdb_path : string) : option string :=
  match os_path_getmtime w gdb_path with
  | Ok t => format_timestamp w t
  | Raise _ => None
  end.

(** Where a row comes from: geodatabase name, path and modification time,
    feature dataset, dataset path. *)
Definition row_origin (r : row)
  : string * string * option string * option string * string :=
  (GDB_Name r, GDB_Path r, GDB_Last_Modified r, Feature_Dataset r, Dataset_Path r).

(** The origins of the records held so far. *)
Definition origins_of (s : state)
  : list (string * string * option string * option string * string) :=
  row_origin <$> records s.

(** The origins of the rows of the geodatabase [dirname] under [dirpath]:
    its feature classes, those of each feature dataset, its tables, its
    rasters, as the listings give them. *)
Definition gdb_origins (w : world) (dirpath dirname : string)
  : list (string * string * option string * option string * string) :=
  let gdb := os_path_join w dirpath dirname in
  let here (parent : string) (fd : option string) (name : string) :=
    (dirname, gdb, gdb_last_modified w gdb, fd, os_path_join w parent name) in
  (here gdb None <$> listed w ListFeatureClasses gdb)
  ++ (listed w ListDatasets gdb ≫= fun fds =>
        here (os_path_join w gdb fds) (Some fds)
          <$> listed w ListFeatureClasses (os_path_join w gdb fds))
  ++ (here gdb None <$> listed w ListTables gdb)
  ++ (here gdb None <$> listed w ListRasters gdb).

Definition entry_origins (w : world)
    (entry : string * list string * list string)
  : list (string * string * option string * option string * string) :=
  let '(dirpath, dirnames, _) := entry in
  filter (fun d => Is_true (is_gdb_name d)) dirnames ≫= gdb_origins w dirpath.

Definition inventory_origins (w : world) (root_dir : string)
  : list (string * string * option string * option string * string) :=
  os_walk w root_dir ≫= entry_origins w.

End CatalogNotions.

Module ExtraScenario.
Import LayerMetadata.

(** A layer file that opens and whose layers cannot be listed. *)
Definition no_layers : layer_file :=
  {| listLayers := Raise (ExecuteError "cannot list layers") |}.

(** The directory of [two_files] when every file opens and none lets its
    layers be listed. *)
Definition unlistable : world :=
  {| DIRECTORY_PATH := DIRECTORY_PATH MetadataScenario.two_files;
     ADMIN_DIRECTORY_PATH := ADMIN_DIRECTORY_PATH MetadataScenario.two_files;
     glob_lyrx := glob_lyrx MetadataScenario.two_files;
     LayerFile _ := Ok no_layers;
     os_stat := os_stat MetadataScenario.two_files;
     source_stat := source_stat MetadataScenario.two_files;
     da_Describe_fields := da_Describe_fields MetadataScenario.two_files;
     os_path_basename := os_path_basename MetadataScenario.two_files;
     os_path_dirname := os_path_dirname MetadataScenario.two_files;
     os_path_join := os_path_join MetadataScenario.two_files;
     USERNAME := USERNAME MetadataScenario.two_files;
     now := now MetadataScenario.two_files |}.

(** The same directory when every file opens as a layer file and [os.stat]
    fails on each. *)
Definition unreadable_stats : world :=
  {| DIRECTORY_PATH := DIRECTORY_PATH MetadataScenario.two_files;
     ADMIN_DIRECTORY_PATH := ADMIN_DIRECTORY_PATH MetadataScenario.two_files;
     glob_lyrx := glob_lyrx MetadataScenario.two_files;
     LayerFile _ := Ok no_layers;
     os_stat _ := Raise (OSError "permission denied");
     source_stat := source_stat MetadataScenario.two_files;
     da_Describe_fields := da_Describe_fields MetadataScenario.two_files;
     os_path_basename := os_path_basename MetadataScenario.two_files;
     os_path_dirname := os_path_dirname MetadataScenario.two_files;
     os_path_join := os_path_join MetadataScenario.two_files;
     USERNAME := USERNAME MetadataScenario.two_files;
     now := now MetadataScenario.two_files |}.

Definition start : xstate :=
  {| data_list := []; contents := [contents_header]; printed := [] |}.

(** A raster as [arcpy.Describe] shows it; here with a shape type, which
    the script does not read for it. *)
Definition raster_desc : Catalog.describe :=
  {| Catalog.d_name := "elevation";
     Catalog.d_datasetType := Some "RasterDataset";
     Catalog.d_shapeType := Some "Polygon";
     Catalog.d_spatialReference := Some CatalogScenario.wgs84 |}.

Definition rasters_only : Catalog.world :=
  CatalogScenario.with_Describe CatalogScenario.city (fun _ => Ok raster_desc).

(** A state in which an earlier user of arcpy left a workspace set. *)
Definition busy : Catalog.state :=
  {| Catalog.workspace := Some "D:/elsewhere"; Catalog.records := [];
     Catalog.stdout := []; Catalog.trace := []; Catalog.files := ∅ |}.

(** An empty geodatabase [c.gdb]: every listing answers [None]. *)
Definition empty_gdb : Catalog.world :=
  CatalogScenario.with_walk CatalogScenario.city (fun _ =>
    [ ("D:/gis", ["c.gdb"], []) ]).

End ExtraScenario.

(** ** Facts about strings *)

Module StringFacts.

Lemma str_app_cons a s t : String a s +:+ t = String a (s +:+ t).
Proof. reflexivity. Qed.

Lemma str_app_nil_r s : s +:+ EmptyString = s.
Proof. induction s as [|a s IH]; [done|]. by rewrite str_app_cons, IH. Qed.

Lemma str_app_assoc s t u : (s +:+ t) +:+ u = s +:+ t +:+ u.
Proof. induction s as [|a s IH]; [done|]. by rewrite !str_app_cons, IH. Qed.

Lemma str_length_app s t :
  String.length (s +:+ t) = String.length s + String.length t.
Proof.
  induction s as [|a s IH]; [done|]. rewrite str_app_cons. simpl. by rewrite IH.
Qed.

(** Two concatenations that agree, with heads of one length, have one head. *)
Lemma str_app_inj_length s1 s2 t1 t2 :
  String.length s1 = String.length s2 -> s1 +:+ t1 = s2 +:+ t2 -> s1 = s2.
Proof.
  revert s2. induction s1 as [|a s1 IH]; intros [|b s2] Hlen Heq; try done.
  rewrite !str_app_cons in Heq. injection Heq as -> Heq. simpl in Hlen.
  f_equal. apply IH; [lia|done].
Qed.

Lemma concat_str_cons d l : concat_str (d :: l) = d +:+ concat_str l.
Proof. reflexivity. Qed.

(** Writing a string character by character writes the string. *)
Lemma concat_str_chars s : concat_str (chars s) = s.
Proof.
  induction s as [|a s IH]; [done|].
  change (String a EmptyString +:+ concat_str (chars s) = String a s). by rewrite IH.
Qed.

Lemma lower_app s t : lower (s +:+ t) = lower s +:+ lower t.
Proof. induction s as [|a s IH]; [done|]. rewrite str_app_cons. simpl. by rewrite IH. Qed.

Lemma endswith_refl s : endswith s s = true.
Proof. destruct s; simpl; try case_bool_decide; done. Qed.

Lemma endswith_app s suffix : endswith (s +:+ suffix) suffix = true.
Proof.
  induction s as [|a s IH]; [apply endswith_refl|].
  rewrite str_app_cons. simpl. rewrite IH. apply orb_true_r.
Qed.

End StringFacts.

(** ** Facts about the control operators *)

Module PyFacts.

Lemma bind_ok {S A B} (m : M S A) (k : A -> M S B) s a s' :
  m s = (Ok a, s') -> bind m k s = k a s'.
Proof. unfold bind. by intros ->. Qed.

Lemma bind_raise {S A B} (m : M S A) (k : A -> M S B) s e s' :
  m s = (Raise e, s') -> bind m k s = (Raise e, s').
Proof. unfold bind. by intros ->. Qed.

Lemma for_each_cons_ok {S A} (body : A -> M S unit) x l s s' :
  body x s = (Ok tt, s') -> for_each (x :: l) body s = for_each l body s'.
Proof. intros H. simpl. by rewrite (bind_ok _ _ _ _ _ H). Qed.

End PyFacts.

(** ** The layer metadata report *)

Module MetadataProofs.
Import LayerMetadata StringFacts PyFacts.

(** *** The writer *)

Lemma md_write_written p d c s :
  md_write p d (written p c s) = (Ok tt, written p (c +:+ d) s).
Proof.
  unfold md_write, modify, written. simpl.
  by rewrite lookup_insert_eq, insert_insert_eq.
Qed.

Lemma for_each_md_write p l c s :
  for_each l (md_write p) (written p c s)
  = (Ok tt, written p (c +:+ concat_str l) s).
Proof.
  revert c. induction l as [|d l IH]; intros c.
  - simpl. unfold ret. by rewrite str_app_nil_r.
  - rewrite concat_str_cons. simpl. unfold bind.
    rewrite md_write_written, IH. by rewrite str_app_assoc.
Qed.

Lemma datetime_now_tick w s :
  datetime_now w s = (Ok (now w (clock_reads s)), tick s).
Proof. reflexivity. Qed.

Lemma open_w_written p s : open_w p s = (Ok tt, written p EmptyString s).
Proof. reflexivity. Qed.

Ltac writer_step :=
  first [ apply datetime_now_tick | apply open_w_written
        | apply md_write_written | apply for_each_md_write | reflexivity ].

Ltac run_writer :=
  unfold write_metadata_to_file;
  repeat (erewrite bind_ok by writer_step).

(** With two or more elements in [data_list] the writer completes, and the
    file holds the report built from the first two. *)
Lemma write_metadata_to_file_ok w toc body rest p s :
  write_metadata_to_file w (toc :: body :: rest) p s
  = (Ok tt, written p (report w toc body (now w (clock_reads s))) (tick s)).
Proof.
  run_writer. rewrite md_write_written.
  unfold report, report_middle, report_top.
  do 2 f_equal. rewrite !str_app_assoc. reflexivity.
Qed.

(** With the table of contents alone the writer raises at [data_list[1]],
    after the header and the contents have been written. *)
Lemma write_metadata_to_file_short w toc p s :
  write_metadata_to_file w [toc] p s
  = (Raise (IndexError "list index out of range"),
     written p (truncated_report w toc (now w (clock_reads s))) (tick s)).
Proof.
  run_writer. erewrite bind_raise by reflexivity.
  unfold truncated_report, report_top.
  do 2 f_equal. rewrite !str_app_assoc. reflexivity.
Qed.

(** The elements of [data_list] after the second are never read. *)
Lemma write_metadata_to_file_tail w toc body rest p s :
  write_metadata_to_file w (toc :: body :: rest) p s
  = write_metadata_to_file w [toc; body] p s.
Proof. by rewrite !write_metadata_to_file_ok. Qed.

(** Reports of the same content are equal only for equal clock readings. *)
Lemma report_inj w toc body t1 t2 :
  report w toc body t1 = report w toc body t2 -> t1 = t2.
Proof.
  unfold report. intros H.
  assert (String.length t1 = String.length t2) as Hlen.
  { apply (f_equal String.length) in H. rewrite !str_length_app in H. lia. }
  apply (inj (String.app report_top)) in H.
  by apply str_app_inj_length in H.
Qed.

(** *** The extraction *)

(** A file that cannot be opened leaves [data_list] and [contents] alone. *)
Lemma file_body_unopened w f x :
  is_ok (LayerFile w f) = false ->
  fst (file_body w f x) = Ok tt /\
  data_list (snd (file_body w f x)) = data_list x /\
  contents (snd (file_body w f x)) = contents x.
Proof.
  intros H. unfold file_body, try_except, bind, lift.
  destruct (LayerFile w f) as [lf|e]; [done|]. by simpl.
Qed.

Lemma for_each_unopened w files x :
  (forall f, f ∈ files -> is_ok (LayerFile w f) = false) ->
  data_list (snd (for_each files (file_body w) x)) = data_list x /\
  contents (snd (for_each files (file_body w) x)) = contents x.
Proof.
  revert x. induction files as [|f files IH]; intros x Hall; [done|].
  destruct (file_body_unopened w f x) as (Hok & Hd & Hc).
  { apply Hall. by left. }
  simpl. unfold bind.
  destruct (file_body w f x) as [[[]|e] x']; simpl in *; [|done].
  destruct (IH x') as [Hd' Hc'].
  { intros g Hg. apply Hall. by right. }
  by rewrite Hd', Hc', Hd, Hc.
Qed.

(** *** main *)

Lemma print_echoed line s : print line s = (Ok tt, echoed [line] s).
Proof. reflexivity. Qed.

Lemma for_each_print lines s :
  for_each lines print s = (Ok tt, echoed lines s).
Proof.
  revert s. induction lines as [|l lines IH]; intros s.
  - unfold echoed. simpl. rewrite app_nil_r. by destruct s.
  - erewrite for_each_cons_ok by apply print_echoed. rewrite IH.
    unfold echoed. simpl. by rewrite <- app_assoc.
Qed.

(** The run when the extraction returns at least one section. *)
Lemma main_complete w s toc body rest lines :
  glob_lyrx w <> [] ->
  extract_layer_metadata w (glob_lyrx w) = (toc :: body :: rest, lines) ->
  main w s =
  (Ok tt,
   echoed ["Metadata written to: " +:+ output_file w]
     (written (admin_output_file w)
        (report w toc body (now w (S (clock_reads s))))
        (tick (written (output_file w)
                 (report w toc body (now w (clock_reads s)))
                 (tick (echoed lines (echoed [found_line w] s))))))).
Proof.
  intros Hne Hx. unfold main.
  destruct (glob_lyrx w) as [|f l] eqn:Hglob; [done|].
  rewrite Hx.
  erewrite bind_ok by apply print_echoed.
  erewrite bind_ok by apply for_each_print.
  erewrite bind_ok by apply write_metadata_to_file_ok.
  erewrite bind_ok by apply write_metadata_to_file_ok.
  rewrite print_echoed. unfold found_line. by rewrite Hglob.
Qed.

(** The run when the extraction returns the table of contents alone. *)
Lemma main_crash w s toc lines :
  glob_lyrx w <> [] ->
  extract_layer_metadata w (glob_lyrx w) = ([toc], lines) ->
  main w s =
  (Raise (IndexError "list index out of range"),
   written (output_file w)
     (truncated_report w toc (now w (clock_reads s)))
     (tick (echoed lines (echoed [found_line w] s)))).
Proof.
  intros Hne Hx. unfold main.
  destruct (glob_lyrx w) as [|f l] eqn:Hglob; [done|].
  rewrite Hx.
  erewrite bind_ok by apply print_echoed.
  erewrite bind_ok by apply for_each_print.
  erewrite bind_raise by apply write_metadata_to_file_short.
  unfold found_line. by rewrite Hglob.
Qed.

(** *** The claims *)

(** C1 (the code departs from the claim).  The claim: the written report
    contains every content section appended for the files that were
    processed.  The writer reads [data_list[1]] only.  In the run over
    [a.lyrx], which cannot be opened, and [b.lyrx], which holds the layer
    [roads], the extraction returns the layer's source, field, property and
    symbology sections after the file information, the run completes, and
    the report on disk holds the file information and none of the four
    later sections. *)
Theorem report_drops_sections_after_the_first :
  let w := MetadataScenario.two_files in
  let layer_section := layer_info "roads" "C:/data/city.gdb/roads" in
  exists toc info fields props symb content,
    fst (extract_layer_metadata w (glob_lyrx w))
      = [Lst toc; Str info; Str layer_section; Str fields; Str props; Str symb] /\
    fst (main w MetadataScenario.fresh) = Ok tt /\
    fs (snd (main w MetadataScenario.fresh)) !! output_file w = Some content /\
    contains info content = true /\
    contains layer_section content = false /\
    contains fields content = false /\
    contains props content = false /\
    contains symb content = false.
Proof.
  do 6 eexists. vm_compute. repeat split; reflexivity.
Qed.

(** C3 (amended).  Each call of the writer reads the clock itself.  In a
    run that completes with two distinct destinations, both files hold the
    report of the same first two elements of the extraction result, the
    primary with the first clock reading and the administrative copy with
    the second; the two files are byte-identical exactly when the two
    readings are equal. *)
Theorem copies_identical_iff_clock_readings_equal w s :
  glob_lyrx w <> [] ->
  fst (main w s) = Ok tt ->
  output_file w <> admin_output_file w ->
  exists toc body rest,
    fst (extract_layer_metadata w (glob_lyrx w)) = toc :: body :: rest /\
    fs (snd (main w s)) !! output_file w
      = Some (report w toc body (now w (clock_reads s))) /\
    fs (snd (main w s)) !! admin_output_file w
      = Some (report w toc body (now w (S (clock_reads s)))) /\
    (fs (snd (main w s)) !! output_file w
       = fs (snd (main w s)) !! admin_output_file w
     <-> now w (clock_reads s) = now w (S (clock_reads s))).
Proof.
  intros Hne Hok Hpaths.
  destruct (extract_layer_metadata w (glob_lyrx w)) as [dl lines] eqn:Hx.
  assert (exists toc rest0, dl = toc :: rest0) as (toc & rest0 & ->).
  { unfold extract_layer_metadata in Hx. injection Hx as <- _. eauto. }
  destruct rest0 as [|body rest].
  { rewrite (main_crash w s toc lines Hne Hx) in Hok. done. }
  exists toc, body, rest.
  rewrite (main_complete w s toc body rest lines Hne Hx). simpl.
  rewrite lookup_insert_ne by done. rewrite !lookup_insert_eq.
  repeat split; try done.
  - intros H. apply (inj Some) in H. by apply report_inj in H.
  - by intros ->.
Qed.

Lemma copies_identical_iff_clock_readings_equal_witness :
  let w := MetadataScenario.two_files in
  exists toc body rest,
    fst (extract_layer_metadata w (glob_lyrx w)) = toc :: body :: rest /\
    fs (snd (main w MetadataScenario.fresh)) !! output_file w
      = Some (report w toc body "2024-05-03 10:00:00") /\
    fs (snd (main w MetadataScenario.fresh)) !! admin_output_file w
      = Some (report w toc body "2024-05-03 10:00:01") /\
    (fs (snd (main w MetadataScenario.fresh)) !! output_file w
       = fs (snd (main w MetadataScenario.fresh)) !! admin_output_file w
     <-> "2024-05-03 10:00:00" = "2024-05-03 10:00:01").
Proof.
  apply (copies_identical_iff_clock_readings_equal
           MetadataScenario.two_files MetadataScenario.fresh);
    [done | vm_compute; reflexivity | vm_compute; discriminate].
Defined.

(** C3, as first stated, fails: in the run over [a.lyrx] and [b.lyrx] the
    clock moves by a second between the two calls of the writer, both
    files are written, and their contents differ. *)
Lemma copies_differ_when_clock_ticks :
  let w := MetadataScenario.two_files in
  let s' := snd (main w MetadataScenario.fresh) in
  fst (main w MetadataScenario.fresh) = Ok tt /\
  is_Some (fs s' !! output_file w) /\
  is_Some (fs s' !! admin_output_file w) /\
  fs s' !! output_file w <> fs s' !! admin_output_file w.
Proof.
  vm_compute. repeat split; try (eexists; reflexivity). discriminate.
Qed.

(** C6.  When the glob matches no layer file, the run prints the not-found
    message and ends: no file is written, the clock is not read. *)
Theorem no_layer_files_no_report w s :
  glob_lyrx w = [] ->
  fst (main w s) = Ok tt /\
  stdout (snd (main w s))
    = stdout s ++ ["No .lyrx files found in " +:+ DIRECTORY_PATH w] /\
  fs (snd (main w s)) = fs s /\
  clock_reads (snd (main w s)) = clock_reads s.
Proof. intros H. unfold main. by rewrite H. Qed.

Lemma no_layer_files_no_report_witness :
  fst (main MetadataScenario.no_files MetadataScenario.fresh) = Ok tt /\
  stdout (snd (main MetadataScenario.no_files MetadataScenario.fresh))
    = ["No .lyrx files found in C:/gis/layers"] /\
  fs (snd (main MetadataScenario.no_files MetadataScenario.fresh)) = ∅ /\
  clock_reads (snd (main MetadataScenario.no_files MetadataScenario.fresh)) = 0.
Proof.
  apply (no_layer_files_no_report MetadataScenario.no_files MetadataScenario.fresh).
  reflexivity.
Defined.

(** C9.  When layer files are matched and every one of them raises while
    being opened, the extraction returns the table of contents alone, with
    its header as only line; the writer raises an index error at
    [data_list[1]] and so does the run.  No complete report exists then:
    the primary file is left with the header and the contents, without
    body or footer, and the administrative copy is not written. *)
Theorem every_file_unopened_run_raises w s :
  glob_lyrx w <> [] ->
  (forall f, f ∈ glob_lyrx w -> is_ok (LayerFile w f) = false) ->
  fst (extract_layer_metadata w (glob_lyrx w)) = [Lst [contents_header]] /\
  fst (write_metadata_to_file w [Lst [contents_header]] (output_file w) s)
    = Raise (IndexError "list index out of range") /\
  fst (main w s) = Raise (IndexError "list index out of range") /\
  fs (snd (main w s)) !! output_file w
    = Some (truncated_report w (Lst [contents_header]) (now w (clock_reads s))) /\
  (admin_output_file w <> output_file w ->
   fs (snd (main w s)) !! admin_output_file w = fs s !! admin_output_file w).
Proof.
  intros Hne Hall.
  destruct (extract_layer_metadata w (glob_lyrx w)) as [dl lines] eqn:Hx.
  assert (dl = [Lst [contents_header]]) as ->.
  { unfold extract_layer_metadata, extract_state in Hx. injection Hx as <- _.
    destruct (for_each_unopened w (glob_lyrx w)
                {| data_list := []; contents := [contents_header];
                   printed := [] |} Hall) as [-> ->].
    done. }
  rewrite (main_crash w s _ lines Hne Hx), write_metadata_to_file_short. simpl.
  rewrite lookup_insert_eq. repeat split; try done.
  intros Hadm. by rewrite lookup_insert_ne.
Qed.

Lemma every_file_unopened_run_raises_witness :
  let w := MetadataScenario.none_opens in
  fst (extract_layer_metadata w (glob_lyrx w)) = [Lst [contents_header]] /\
  fst (write_metadata_to_file w [Lst [contents_header]] (output_file w)
         MetadataScenario.fresh)
    = Raise (IndexError "list index out of range") /\
  fst (main w MetadataScenario.fresh) = Raise (IndexError "list index out of range") /\
  fs (snd (main w MetadataScenario.fresh)) !! output_file w
    = Some (truncated_report w (Lst [contents_header]) "2024-05-03 10:00:00") /\
  (admin_output_file w <> output_file w ->
   fs (snd (main w MetadataScenario.fresh)) !! admin_output_file w = None).
Proof.
  apply (every_file_unopened_run_raises MetadataScenario.none_opens MetadataScenario.fresh);
    [done | intros f _; reflexivity].
Defined.

End MetadataProofs.

(** ** The geodatabase inventory *)

Module CatalogProofs.
Import Catalog StringFacts PyFacts.

(** *** describe_dataset *)

(** [describe_dataset] changes nothing. *)
Lemma describe_dataset_state w g gp glm p fd s :
  snd (describe_dataset w g gp glm p fd s) = s.
Proof.
  unfold describe_dataset, bind, try_except, lift, ret.
  destruct (Describe w p) as [desc|e]; [|done].
  destruct (d_spatialReference desc) as [sr|];
    [destruct (sr_name sr)|]; case_decide; try destruct (GetCount w p); done.
Qed.

(** A failure of [arcpy.Describe] is the failure of [describe_dataset]. *)
Lemma describe_dataset_raise w g gp glm p fd s e :
  Describe w p = Raise e ->
  describe_dataset w g gp glm p fd s = (Raise e, s).
Proof. intros H. unfold describe_dataset, bind, lift. by rewrite H. Qed.

(** Once [arcpy.Describe] has answered, a row comes back whatever the two
    guarded queries do. *)
Lemma describe_dataset_ok w g gp glm p fd s desc :
  Describe w p = Ok desc ->
  exists r,
    describe_dataset w g gp glm p fd s = (Ok r, s) /\
    GDB_Name r = g /\ Feature_Dataset r = fd /\
    Dataset_Name r = d_name desc /\ Dataset_Path r = p /\
    Dataset_Type r = default "Unknown" (d_datasetType desc) /\
    (is_ok (GetCount w p) = false -> Feature_Count r = None) /\
    (forall n, GetCount w p = Ok n ->
               Dataset_Type r = "FeatureClass" \/ Dataset_Type r = "Table" ->
               Feature_Count r = Some n) /\
    (forall sr, d_spatialReference desc = Some sr ->
                is_ok (sr_name sr) = false -> Spatial_Reference r = None).
Proof.
  intros H. unfold describe_dataset, bind, try_except, lift, ret. rewrite H.
  destruct (d_spatialReference desc) as [sr|] eqn:Hsr;
    [destruct (sr_name sr) eqn:Hname|];
    case_decide; try destruct (GetCount w p) eqn:Hc;
    eexists; (split; [reflexivity|]); simpl; repeat split;
    try done; try (intros; simplify_eq; done).
  all: intros ? [= <-] Hf; by rewrite Hname in Hf.
Qed.

Lemma append_dataset_raise w g gp glm parent fd name s e :
  Describe w (os_path_join w parent name) = Raise e ->
  append_dataset w g gp glm parent fd name s = (Raise e, s).
Proof.
  intros H. unfold append_dataset.
  by erewrite bind_raise by (by apply describe_dataset_raise).
Qed.

(** *** What the loops leave alone *)

Lemma keeps_ret {A B} (f : state -> B) (a : A) : keeps f (ret a).
Proof. by intros s. Qed.

Lemma keeps_bind {A B C} (f : state -> C) (m : M state A) (k : A -> M state B) :
  keeps f m -> (forall a, keeps f (k a)) -> keeps f (bind m k).
Proof.
  intros Hm Hk s. unfold bind. specialize (Hm s).
  destruct (m s) as [[a|e] s']; simpl in *; [|done].
  by rewrite Hk.
Qed.

Lemma keeps_for_each {A B} (f : state -> B) (l : list A) (body : A -> M state unit) :
  (forall x, keeps f (body x)) -> keeps f (for_each l body).
Proof.
  intros Hb. induction l as [|x l IH]; [apply keeps_ret|].
  simpl. apply keeps_bind; [apply Hb|]. by intros _.
Qed.

Lemma keeps_describe_dataset {B} (f : state -> B) w g gp glm p fd :
  keeps f (describe_dataset w g gp glm p fd).
Proof. intros s. by rewrite describe_dataset_state. Qed.

Lemma keeps_append_dataset {B} (f : state -> B) w g gp glm parent fd name :
  (forall r s, f (appended r s) = f s) ->
  keeps f (append_dataset w g gp glm parent fd name).
Proof.
  intros Hf. unfold append_dataset.
  apply keeps_bind; [apply keeps_describe_dataset|]. intros r s. apply Hf.
Qed.

(** Appending the datasets of a listing touches [records] only. *)
Lemma for_each_append_dataset_env w g gp glm parent fd names s :
  let s' := snd (for_each names (append_dataset w g gp glm parent fd) s) in
  workspace s' = workspace s /\ stdout s' = stdout s /\
  trace s' = trace s /\ files s' = files s.
Proof.
  simpl. repeat split;
    apply keeps_for_each; intros x; by apply keeps_append_dataset.
Qed.

Lemma keeps_arcpy_List {B} (f : state -> B) w k :
  (forall s ev, f {| workspace := workspace s; records := records s;
                     stdout := stdout s; trace := trace s ++ [ev];
                     files := files s |} = f s) ->
  keeps f (arcpy_List w k).
Proof.
  intros Hf s. unfold arcpy_List.
  destruct (arcpy_list w k (workspace s)); simpl; apply Hf.
Qed.

Ltac keeps_step :=
  first [ apply keeps_ret
        | apply keeps_append_dataset; by intros
        | apply keeps_arcpy_List; by intros
        | apply keeps_for_each
        | apply keeps_bind
        | by intros ? ].

(** The inventory itself writes no spreadsheet. *)
Lemma keeps_files_gdb_body w dirpath dirname :
  keeps files (gdb_body w dirpath dirname).
Proof. unfold gdb_body, for_in. cbv zeta. repeat (intros; keeps_step). Qed.

Lemma keeps_files_walk_body w entry : keeps files (walk_body w entry).
Proof.
  destruct entry as [[dirpath dirnames] fs]. simpl.
  apply keeps_for_each. intros d.
  destruct (negb (is_gdb_name d)); [apply keeps_ret|apply keeps_files_gdb_body].
Qed.

Lemma keeps_files_inventory w root :
  keeps files (inventory_geodatabases w root).
Proof.
  unfold inventory_geodatabases.
  apply keeps_bind; [by intros ?|intros _].
  apply keeps_bind; [|by intros ? ?].
  apply keeps_for_each, keeps_files_walk_body.
Qed.

(** *** main *)

Lemma main_walk w s :
  main w s =
  match walk w s with
  | (Ok [], s1) => print "No datasets found." s1
  | (Ok (r :: recs), s1) =>
      (print ("Writing inventory to Excel: " +:+ OUTPUT_EXCEL w) >>
       to_excel (OUTPUT_EXCEL w) (sort_values (r :: recs)) >>
       print "Inventory complete.") s1
  | (Raise e, s1) => (Raise e, s1)
  end.
Proof.
  unfold main, walk, starting_line. unfold bind at 1. simpl.
  unfold bind at 1.
  destruct (inventory_geodatabases w (ROOT_DIR w) _) as [[[|r recs]|e] s1]; done.
Qed.

(** A walk that meets no candidate folder returns no record and prints
    nothing. *)
Lemma walk_body_no_candidate w dirpath dirnames fs s :
  filter (fun d => Is_true (is_gdb_name d)) dirnames = [] ->
  walk_body w (dirpath, dirnames, fs) s = (Ok tt, s).
Proof.
  simpl. revert s. induction dirnames as [|d l IH]; intros s Hf; [done|].
  rewrite filter_cons in Hf. case_decide as Hd; [done|].
  apply Is_true_false in Hd.
  erewrite for_each_cons_ok; [by apply IH|]. by rewrite Hd.
Qed.

Lemma for_each_walk_no_candidate w entries s :
  entries ≫= entry_candidates w = [] ->
  for_each entries (walk_body w) s = (Ok tt, s).
Proof.
  revert s. induction entries as [|[[dp dn] fs] l IH]; intros s H; [done|].
  rewrite bind_cons in H. apply app_eq_nil in H as [H1 H2].
  apply fmap_nil_inv in H1.
  erewrite for_each_cons_ok; [by apply IH|].
  by apply walk_body_no_candidate.
Qed.

Lemma walk_no_candidate w s :
  candidates w (ROOT_DIR w) = [] ->
  fst (walk w s) = Ok [] /\
  stdout (snd (walk w s)) = stdout s ++ [starting_line w].
Proof.
  intros H. unfold walk, inventory_geodatabases.
  erewrite bind_ok by reflexivity.
  erewrite bind_ok by (by apply for_each_walk_no_candidate).
  done.
Qed.

(** *** What the statements add to a log *)

Lemma logs_bind {A B C} (f : state -> list C) (m : M state A) (k : A -> M state B)
    s full1 full2 Q1 Q2 :
  logs f m s full1 Q1 ->
  (forall a s1, m s = (Ok a, s1) -> Q1 s1 -> logs f (k a) s1 full2 Q2) ->
  logs f (bind m k) s (full1 ++ full2) Q2.
Proof.
  intros (evs1 & Hf1 & Hp1 & Hok1) Hk. unfold logs, bind.
  destruct (m s) as [[a|e] s1] eqn:Hm; simpl in *.
  - destruct (Hok1 eq_refl) as [-> HQ].
    destruct (Hk a s1 eq_refl HQ) as (evs2 & Hf2 & Hp2 & Hok2).
    exists (full1 ++ evs2). split; [by rewrite Hf2, Hf1, app_assoc|].
    split; [by apply prefix_app|].
    intros Hok. destruct (Hok2 Hok) as [-> HQ2]. done.
  - exists evs1. split; [done|]. split; [by apply prefix_app_r|done].
Qed.

Lemma logs_ret {A B} (f : state -> list B) (a : A) s (Q : state -> Prop) :
  Q s -> logs f (ret a) s [] Q.
Proof. intros HQ. exists []. simpl. by rewrite app_nil_r. Qed.

(** A statement that keeps the log adds nothing to it. *)
Lemma logs_keeps {A B} (f : state -> list B) (m : M state A) s :
  keeps f m -> logs f m s [] (fun _ => True).
Proof. intros Hm. exists []. by rewrite Hm, app_nil_r. Qed.

Lemma logs_for_each {A B} (f : state -> list B) (body : A -> M state unit)
    (out : A -> list B) (I : state -> Prop) l s :
  I s ->
  (forall x s0, I s0 -> logs f (body x) s0 (out x) I) ->
  logs f (for_each l body) s (l ≫= out) I.
Proof.
  intros HI Hbody. revert s HI.
  induction l as [|x l IH]; intros s HI; [by apply logs_ret|].
  rewrite bind_cons. simpl.
  eapply logs_bind; [by apply Hbody|]. intros _ s1 _ HI1. by apply IH.
Qed.

(** *** The workspace pointer *)

Lemma trace_set_workspace ws s (Q : state -> Prop) :
  (forall s', workspace s' = ws -> Q s') ->
  logs trace (set_workspace ws) s [SetWorkspace ws] Q.
Proof. intros HQ. eexists. repeat split; [done|]. by apply HQ. Qed.

Lemma arcpy_List_state w k s :
  trace (snd (arcpy_List w k s)) = trace s ++ [Listing k (workspace s)] /\
  workspace (snd (arcpy_List w k s)) = workspace s.
Proof. unfold arcpy_List. by destruct (arcpy_list w k (workspace s)). Qed.

(** A listing and the loop over its names: one call, made with the
    workspace in force, which the loop leaves as it is. *)
Lemma trace_for_in_append w k g gp glm parent fd s :
  logs trace (for_in (arcpy_List w k) (append_dataset w g gp glm parent fd)) s
       [Listing k (workspace s)] (fun s' => workspace s' = workspace s).
Proof.
  unfold for_in, logs, bind.
  destruct (arcpy_List_state w k s) as [Ht Hw].
  destruct (arcpy_List w k s) as [[l|e] s1]; simpl in *.
  - destruct (for_each_append_dataset_env w g gp glm parent fd l s1)
      as (Hw' & _ & Ht' & _).
    simpl in *. exists [Listing k (workspace s)].
    by rewrite Ht', Ht, Hw', Hw.
  - by exists [Listing k (workspace s)].
Qed.

(** A feature dataset: the workspace goes to it, its feature classes are
    listed there, and the workspace comes back to the geodatabase. *)
Lemma trace_fds_body w g glm gdb fds s :
  logs trace
    (set_workspace (Some (os_path_join w gdb fds)) >>
     for_in (arcpy_List w ListFeatureClasses)
       (append_dataset w g gdb glm (os_path_join w gdb fds) (Some fds)) >>
     set_workspace (Some gdb))
    s (fds_trace w gdb fds) (fun s' => workspace s' = Some gdb).
Proof.
  unfold fds_trace.
  change [SetWorkspace (Some (os_path_join w gdb fds));
          Listing ListFeatureClasses (Some (os_path_join w gdb fds));
          SetWorkspace (Some gdb)]
    with ([SetWorkspace (Some (os_path_join w gdb fds))]
          ++ [Listing ListFeatureClasses (Some (os_path_join w gdb fds))]
          ++ [SetWorkspace (Some gdb)]).
  eapply logs_bind; [apply trace_set_workspace; intros s' H; exact H|].
  intros _ s1 _ Hw1. simpl in Hw1.
  eapply logs_bind; [rewrite <- Hw1; apply trace_for_in_append|].
  intros _ s2 _ _. by apply trace_set_workspace.
Qed.

Lemma trace_for_in_datasets w g glm gdb s :
  workspace s = Some gdb ->
  logs trace
    (for_in (arcpy_List w ListDatasets) (fun fds =>
       set_workspace (Some (os_path_join w gdb fds)) >>
       for_in (arcpy_List w ListFeatureClasses)
         (append_dataset w g gdb glm (os_path_join w gdb fds) (Some fds)) >>
       set_workspace (Some gdb)))
    s
    ([Listing ListDatasets (Some gdb)]
     ++ (feature_datasets w gdb ≫= fds_trace w gdb))
    (fun s' => workspace s' = Some gdb).
Proof.
  intros Hw. unfold for_in.
  eapply logs_bind with (Q1 := fun s' => workspace s' = Some gdb).
  - destruct (arcpy_List_state w ListDatasets s) as [Ht Hw'].
    rewrite Hw in Ht, Hw'. by exists [Listing ListDatasets (Some gdb)].
  - intros fdss s1 Hl Hw1.
    assert (fdss = feature_datasets w gdb) as ->.
    { unfold arcpy_List in Hl. rewrite Hw in Hl. unfold feature_datasets.
      destruct (arcpy_list w ListDatasets (Some gdb)); by simplify_eq. }
    apply logs_for_each; [done|]. intros fds s0 _. apply trace_fds_body.
Qed.

(** The interaction of one geodatabase's inventory with arcpy. *)
Lemma trace_gdb_body w dirpath dirname s :
  logs trace (gdb_body w dirpath dirname) s
       (gdb_trace w (os_path_join w dirpath dirname)
          (feature_datasets w (os_path_join w dirpath dirname)))
       (fun s' => workspace s' = None).
Proof.
  unfold gdb_body, gdb_trace. cbv zeta.
  set (gdb := os_path_join w dirpath dirname).
  set (glm := match os_path_getmtime w gdb with
              | Ok t => format_timestamp w t
              | Raise _ => None
              end).
  change (logs trace ?m s ?full ?Q) with (logs trace m s ([] ++ full) Q).
  eapply logs_bind; [apply logs_keeps; by intros ?|]. intros _ s1 _ _.
  change ([SetWorkspace (Some gdb); Listing ListFeatureClasses (Some gdb);
           Listing ListDatasets (Some gdb)]
          ++ (feature_datasets w gdb ≫= fds_trace w gdb)
          ++ [Listing ListTables (Some gdb); Listing ListRasters (Some gdb);
              SetWorkspace None])
    with ([SetWorkspace (Some gdb)]
          ++ [Listing ListFeatureClasses (Some gdb)]
          ++ ([Listing ListDatasets (Some gdb)]
              ++ (feature_datasets w gdb ≫= fds_trace w gdb))
          ++ [Listing ListTables (Some gdb)]
          ++ [Listing ListRasters (Some gdb)]
          ++ [SetWorkspace None]).
  eapply logs_bind; [apply trace_set_workspace; intros s' H; exact H|].
  intros _ s2 _ Hw2. simpl in Hw2.
  eapply logs_bind; [rewrite <- Hw2; apply trace_for_in_append|].
  intros _ s3 _ Hw3. rewrite Hw2 in Hw3.
  eapply logs_bind; [by apply trace_for_in_datasets|].
  intros _ s4 _ Hw4. simpl in Hw4.
  eapply logs_bind; [rewrite <- Hw4; apply trace_for_in_append|].
  intros _ s5 _ Hw5. rewrite Hw4 in Hw5.
  eapply logs_bind; [rewrite <- Hw5; apply trace_for_in_append|].
  intros _ s6 _ _. by apply trace_set_workspace.
Qed.

(** *** How the inventory of a geodatabase ends *)

Lemma ends_bind {A B} (m : M state A) (k : A -> M state B) s
    (Q1 Q2 R : state -> Prop) :
  ends m s Q1 R ->
  (forall a s1, m s = (Ok a, s1) -> Q1 s1 -> ends (k a) s1 Q2 R) ->
  ends (bind m k) s Q2 R.
Proof.
  unfold ends, bind. intros Hm Hk.
  destruct (m s) as [[a|e] s1]; [by apply Hk|done].
Qed.

Lemma ends_for_each {A} (body : A -> M state unit) l s (I R : state -> Prop) :
  I s ->
  (forall x s0, x ∈ l -> I s0 -> ends (body x) s0 I R) ->
  ends (for_each l body) s I R.
Proof.
  revert s. induction l as [|x l IH]; intros s HI Hb; [done|].
  simpl. eapply ends_bind; [apply Hb; [left|done]|].
  intros _ s1 _ HI1. apply IH; [done|]. intros y s0 Hy. apply Hb. by right.
Qed.

Lemma ends_set_workspace ws s (Q R : state -> Prop) :
  (forall s', trace s' = trace s ++ [SetWorkspace ws] -> workspace s' = ws -> Q s') ->
  ends (set_workspace ws) s Q R.
Proof. intros HQ. by apply HQ. Qed.

(** A listing call is logged with the workspace in force, which it leaves
    as it is, whether arcpy answers or raises. *)
Lemma ends_arcpy_List w k ws s (Q R : state -> Prop) :
  workspace s = Some ws ->
  (forall s', trace s' = trace s ++ [Listing k (Some ws)] ->
              workspace s' = Some ws -> Q s') ->
  (forall s', trace s' = trace s ++ [Listing k (Some ws)] ->
              workspace s' = Some ws ->
              is_ok (arcpy_list w k (Some ws)) = false -> R s') ->
  ends (arcpy_List w k) s Q R.
Proof.
  intros Hw HQ HR. unfold ends, arcpy_List. rewrite Hw.
  destruct (arcpy_list w k (Some ws)); [apply HQ|apply HR]; done.
Qed.

Lemma arcpy_List_ok w k ws s l s1 :
  workspace s = Some ws -> arcpy_List w k s = (Ok l, s1) ->
  l = listed w k ws /\ is_ok (arcpy_list w k (Some ws)) = true.
Proof.
  intros Hw Hl. unfold arcpy_List in Hl. rewrite Hw in Hl. unfold listed.
  destruct (arcpy_list w k (Some ws)); by simplify_eq.
Qed.

Lemma append_dataset_ok w g gp glm parent fd name s desc :
  Describe w (os_path_join w parent name) = Ok desc ->
  exists r, append_dataset w g gp glm parent fd name s = (Ok tt, appended r s).
Proof.
  intros H.
  destruct (describe_dataset_ok w g gp glm _ fd s desc H) as (r & Hr & _).
  exists r. unfold append_dataset. by erewrite bind_ok by exact Hr.
Qed.

(** The loop over the names of a listing stops only at a name that cannot
    be described. *)
Lemma for_each_append_dataset_raise w g gp glm parent fd names s e :
  fst (for_each names (append_dataset w g gp glm parent fd) s) = Raise e ->
  exists name, name ∈ names /\
               is_ok (Describe w (os_path_join w parent name)) = false.
Proof.
  revert s. induction names as [|x l IH]; intros s H; [done|].
  destruct (Describe w (os_path_join w parent x)) as [desc|e'] eqn:Hd.
  - destruct (append_dataset_ok w g gp glm parent fd x s desc Hd) as (r & Hr).
    erewrite for_each_cons_ok in H by exact Hr.
    destruct (IH _ H) as (name & Hin & Hn). exists name. split; [by right|done].
  - exists x. split; [left|]. by rewrite Hd.
Qed.

(** A listing and the loop over its names: whatever happens the call is
    logged and the workspace stays; an exception means that arcpy did not
    answer the listing or the describe call for one of its names. *)
Lemma ends_for_in_append w k g gp glm ws fd s (Q R : state -> Prop) :
  workspace s = Some ws ->
  (forall s', trace s' = trace s ++ [Listing k (Some ws)] ->
              workspace s' = Some ws -> Q s') ->
  (forall s', trace s' = trace s ++ [Listing k (Some ws)] ->
              workspace s' = Some ws -> ~ listing_answers w k ws -> R s') ->
  ends (for_in (arcpy_List w k) (append_dataset w g gp glm ws fd)) s Q R.
Proof.
  intros Hw HQ HR. unfold for_in.
  eapply ends_bind with
    (Q1 := fun s' => trace s' = trace s ++ [Listing k (Some ws)] /\
                     workspace s' = Some ws).
  - apply (ends_arcpy_List w k ws); [done|done|].
    intros s' Ht Hw' Hf. apply HR; [done..|]. intros [Hok _]. congruence.
  - intros l s1 Hl [Ht1 Hw1].
    destruct (arcpy_List_ok w k ws s l s1 Hw Hl) as [-> Hok].
    destruct (for_each_append_dataset_env w g gp glm ws fd (listed w k ws) s1)
      as (Hw2 & _ & Ht2 & _). simpl in Hw2, Ht2.
    pose proof (for_each_append_dataset_raise w g gp glm ws fd (listed w k ws) s1)
      as Hraise.
    unfold ends.
    destruct (for_each (listed w k ws) _ s1) as [[[]|e] s2]; simpl in *.
    + apply HQ; congruence.
    + apply HR; [congruence..|].
      intros [_ Hall]. destruct (Hraise e eq_refl) as (name & Hin & Hn).
      rewrite (Hall name Hin) in Hn. done.
Qed.

(** The inventory of one geodatabase.  It begins by setting the workspace
    to the geodatabase and listing the feature classes there; it clears
    the workspace when it completes; an exception leaves the workspace at
    the geodatabase or at a feature dataset, and means that arcpy did not
    answer one of the calls. *)
Lemma ends_gdb_body w dirpath dirname s :
  let gdb := os_path_join w dirpath dirname in
  let begun s' :=
    trace s ++ [SetWorkspace (Some gdb); Listing ListFeatureClasses (Some gdb)]
      `prefix_of` trace s' in
  ends (gdb_body w dirpath dirname) s
    (fun s' => begun s' /\ workspace s' = None)
    (fun s' => begun s' /\ inside w gdb (workspace s') /\
               ~ inventory_answers w gdb).
Proof.
  intros gdb begun. unfold gdb_body. cbv zeta. fold gdb.
  set (glm := match os_path_getmtime w gdb with
              | Ok t => format_timestamp w t
              | Raise _ => None
              end).
  assert (forall s' s'' ev, begun s' -> trace s'' = trace s' ++ [ev] -> begun s'')
    as Hstep.
  { unfold begun. intros s' s'' ev Hb ->. by apply prefix_app_r. }
  eapply ends_bind with (Q1 := fun s1 => trace s1 = trace s); [done|].
  intros _ s1 _ Ht1.
  eapply ends_bind with
    (Q1 := fun s2 => trace s2 = trace s ++ [SetWorkspace (Some gdb)] /\
                     workspace s2 = Some gdb).
  { apply ends_set_workspace. intros s' Ht Hw. by rewrite Ht, Ht1. }
  intros _ s2 _ [Ht2 Hw2].
  assert (forall s', trace s' = trace s2 ++ [Listing ListFeatureClasses (Some gdb)] ->
                     begun s') as Hbegin.
  { unfold begun. intros s' ->. by rewrite Ht2, <- app_assoc. }
  eapply ends_bind with (Q1 := fun s' => begun s' /\ workspace s' = Some gdb).
  { apply ends_for_in_append; [done|by auto|].
    intros s' Ht Hw Hn. split; [by auto|]. split; [by left|].
    intros (H & _). done. }
  intros _ s3 _ [Hb3 Hw3].
  eapply ends_bind with (Q1 := fun s' => begun s' /\ workspace s' = Some gdb).
  { unfold for_in.
    eapply ends_bind with (Q1 := fun s' => begun s' /\ workspace s' = Some gdb).
    - apply (ends_arcpy_List w ListDatasets gdb); [done|by eauto|].
      intros s' Ht Hw Hf. split; [by eauto|]. split; [by left|].
      intros (_ & H & _). congruence.
    - intros l s4 Hl [Hb4 Hw4].
      destruct (arcpy_List_ok w ListDatasets gdb s3 l s4 Hw3 Hl) as [-> _].
      change (listed w ListDatasets gdb) with (feature_datasets w gdb).
      apply ends_for_each; [done|]. intros fds s5 Hfds [Hb5 Hw5].
      eapply ends_bind with
        (Q1 := fun s' => begun s' /\
                         workspace s' = Some (os_path_join w gdb fds)).
      { apply ends_set_workspace. by eauto. }
      intros _ s6 _ [Hb6 Hw6].
      eapply ends_bind with
        (Q1 := fun s' => begun s' /\
                         workspace s' = Some (os_path_join w gdb fds)).
      { apply ends_for_in_append; [done|by eauto|].
        intros s' Ht Hw Hn. split; [by eauto|]. split; [right; by eauto|].
        intros (_ & _ & H & _). by apply Hn, H. }
      intros _ s7 _ [Hb7 Hw7].
      apply ends_set_workspace. by eauto. }
  intros _ s4 _ [Hb4 Hw4].
  eapply ends_bind with (Q1 := fun s' => begun s' /\ workspace s' = Some gdb).
  { apply ends_for_in_append; [done|by eauto|].
    intros s' Ht Hw Hn. split; [by eauto|]. split; [by left|].
    intros (_ & _ & _ & H & _). done. }
  intros _ s5 _ [Hb5 Hw5].
  eapply ends_bind with (Q1 := fun s' => begun s' /\ workspace s' = Some gdb).
  { apply ends_for_in_append; [done|by eauto|].
    intros s' Ht Hw Hn. split; [by eauto|]. split; [by left|].
    intros (_ & _ & _ & _ & H). done. }
  intros _ s6 _ [Hb6 Hw6].
  apply ends_set_workspace. by eauto.
Qed.

(** *** The scanning lines *)

Lemma stdout_gdb_body w dirpath dirname s :
  logs stdout (gdb_body w dirpath dirname) s
       [scanning_line (os_path_join w dirpath dirname)] (fun _ => True).
Proof.
  unfold gdb_body, for_in. cbv zeta.
  change [scanning_line (os_path_join w dirpath dirname)]
    with ([scanning_line (os_path_join w dirpath dirname)] ++ []).
  eapply logs_bind with (Q1 := fun _ => True).
  - by exists [scanning_line (os_path_join w dirpath dirname)].
  - intros _ s1 _ _. apply logs_keeps. repeat (intros; keeps_step).
Qed.

Lemma fmap_bind_list {A B C} (f : B -> C) (g : A -> list B) (l : list A) :
  f <$> (l ≫= g) = l ≫= (fun x => f <$> g x).
Proof.
  induction l as [|x l IH]; [done|]. by rewrite !bind_cons, fmap_app, IH.
Qed.

Lemma stdout_walk_body w entry s :
  logs stdout (walk_body w entry) s
       (scanning_line <$> entry_candidates w entry) (fun _ => True).
Proof.
  destruct entry as [[dirpath dirnames] filenames]. simpl.
  assert (scanning_line <$>
            (os_path_join w dirpath <$>
               filter (fun d => Is_true (is_gdb_name d)) dirnames)
          = dirnames ≫= (fun d => if is_gdb_name d
                                  then [scanning_line (os_path_join w dirpath d)]
                                  else [])) as ->.
  { induction dirnames as [|d l IH]; [done|].
    rewrite bind_cons, filter_cons, <- IH.
    destruct (is_gdb_name d) eqn:Hd; case_decide as Hd'; try done;
      by rewrite Hd in Hd'. }
  apply logs_for_each; [done|]. intros d s0 _.
  destruct (is_gdb_name d); simpl; [apply stdout_gdb_body|by apply logs_ret].
Qed.

Lemma stdout_inventory w root s :
  logs stdout (inventory_geodatabases w root) s
       (scanning_line <$> candidates w root) (fun _ => True).
Proof.
  unfold inventory_geodatabases, candidates.
  rewrite fmap_bind_list.
  match goal with |- logs _ _ _ ?full _ =>
    rewrite <- (app_nil_r full); change (full ++ []) with ([] ++ full ++ [])
  end.
  eapply logs_bind; [apply logs_keeps; by intros ?|]. intros _ s1 _ _.
  eapply logs_bind; [|intros _ s2 _ _; apply logs_keeps; by intros ?].
  apply (logs_for_each _ _ _ (fun _ => True)); [done|].
  intros entry s0 _. apply stdout_walk_body.
Qed.

(** The file names of the walk have no part in the inventory. *)
Lemma inventory_ignore_files w root s :
  inventory_geodatabases (ignore_files w) root s
  = inventory_geodatabases w root s.
Proof.
  unfold inventory_geodatabases. unfold bind at 1 3. simpl.
  assert (forall l s0,
            for_each
              (map (fun entry : string * list string * list string =>
                      let '(dirpath, dirnames, _) := entry in
                      (dirpath, dirnames, [])) l)
              (walk_body (ignore_files w)) s0
            = for_each l (walk_body w) s0) as Hloop.
  { induction l as [|[[dp dn] fs] l IH]; intros s0; [done|].
    simpl. unfold bind.
    change (for_each dn (fun dirname =>
              if negb (is_gdb_name dirname) then ret tt
              else gdb_body (ignore_files w) dp dirname) s0)
      with (for_each dn (fun dirname =>
              if negb (is_gdb_name dirname) then ret tt
              else gdb_body w dp dirname) s0).
    destruct (for_each dn _ s0) as [[[]|e] s1]; [apply IH|done]. }
  unfold bind. by rewrite Hloop.
Qed.

(** The suffix test does not look at the case of the letters. *)
Lemma is_gdb_name_any_case stem ext :
  lower ext = ".gdb" -> is_gdb_name (stem +:+ ext) = true.
Proof.
  intros H. unfold is_gdb_name. rewrite lower_app, H. apply endswith_app.
Qed.

Lemma elem_of_candidates w root p :
  p ∈ candidates w root <->
  exists dirpath dirnames filenames d,
    (dirpath, dirnames, filenames) ∈ os_walk w root /\
    d ∈ dirnames /\
    endswith (lower d) ".gdb" = true /\
    p = os_path_join w dirpath d.
Proof.
  unfold candidates. rewrite list_elem_of_bind. split.
  - intros ([[dp dn] fs] & Hp & He). simpl in Hp.
    apply list_elem_of_fmap in Hp as (d & -> & Hd).
    apply list_elem_of_filter in Hd as [Hg Hd].
    exists dp, dn, fs, d. repeat split; try done. by apply Is_true_true.
  - intros (dp & dn & fs & d & He & Hd & Hg & ->).
    exists (dp, dn, fs). split; [|done]. simpl.
    apply list_elem_of_fmap. exists d. split; [done|].
    apply list_elem_of_filter. split; [|done]. by apply Is_true_true.
Qed.

(** *** The order of the rows *)

Lemma opt_le_trans a b c : opt_le a b -> opt_le b c -> opt_le a c.
Proof. destruct a, b, c; simpl; try done. apply transitivity. Qed.

Lemma opt_le_antisym a b : opt_le a b -> opt_le b a -> a = b.
Proof.
  destruct a, b; simpl; try done.
  intros H1 H2. f_equal. by apply (anti_symm String.le).
Qed.

Lemma opt_le_total a b : opt_le a b \/ opt_le b a.
Proof. destruct a, b; simpl; auto. apply total, _. Qed.

Lemma opt_le_refl a : opt_le a a.
Proof. destruct a; simpl; done. Qed.

#[global] Instance key_le_trans : Transitive key_le.
Proof.
  intros [[g1 f1] n1] [[g2 f2] n2] [[g3 f3] n3] [Hg1 H1] [Hg2 H2].
  split; [by etrans|]. intros <-.
  assert (g1 = g2) as <- by (by apply (anti_symm String.le)).
  destruct (H1 eq_refl) as [Hf1 Hn1], (H2 eq_refl) as [Hf2 Hn2].
  split; [by eapply opt_le_trans|]. intros <-.
  assert (f1 = f2) as <- by (by apply opt_le_antisym).
  specialize (Hn1 eq_refl). specialize (Hn2 eq_refl). by etrans.
Qed.

#[global] Instance key_le_total : Total key_le.
Proof.
  intros [[g1 f1] n1] [[g2 f2] n2]. simpl.
  destruct (decide (g1 = g2)) as [<-|Hg].
  - destruct (decide (f1 = f2)) as [<-|Hf].
    + destruct (total String.le n1 n2); [left|right];
        (split; [done|]; intros _; split; [apply opt_le_refl|done]).
    + destruct (opt_le_total f1 f2); [left|right];
        (split; [done|]; intros _; split; [done|]; intros ?; by subst).
  - destruct (total String.le g1 g2); [left|right];
      (split; [done|]; intros ?; by subst).
Qed.

#[global] Instance row_le_trans : Transitive row_le.
Proof. intros a b c. unfold row_le. apply transitivity. Qed.

#[global] Instance row_le_total : Total row_le.
Proof. intros a b. unfold row_le. apply total, _. Qed.

(** Rows with the same key are not told apart by the order. *)
Lemma row_le_same_key a b : row_key a = row_key b -> row_le a b /\ row_le b a.
Proof.
  unfold row_le. intros ->. destruct (row_key b) as [[g f] n]. simpl.
  pose proof (opt_le_refl f). done.
Qed.

(** The sort keeps the rows and puts them in order. *)
Lemma insert_row_Permutation r df : insert_row r df ≡ₚ r :: df.
Proof.
  induction df as [|r' df IH]; simpl; [done|].
  case_decide; [done|]. rewrite IH. apply Permutation_swap.
Qed.

Lemma sort_values_Permutation df : sort_values df ≡ₚ df.
Proof.
  induction df as [|r df IH]; simpl; [done|].
  rewrite insert_row_Permutation. by f_equiv.
Qed.

Lemma insert_row_Sorted r df : Sorted row_le df -> Sorted row_le (insert_row r df).
Proof.
  induction 1 as [|r' df Hs IH Hhd]; simpl.
  - by repeat constructor.
  - case_decide as Hle.
    + constructor; [by constructor|by constructor].
    + constructor; [done|].
      assert (row_le r' r) as Hr by (by destruct (total row_le r r')).
      destruct Hhd as [|r'' df Hle']; simpl; [by constructor|].
      case_decide; by constructor.
Qed.

Lemma sort_values_StronglySorted df : StronglySorted row_le (sort_values df).
Proof.
  apply Sorted_StronglySorted; [apply _|].
  induction df as [|r df IH]; simpl; [constructor|by apply insert_row_Sorted].
Qed.

(** Rows of the same key leave the sort in the order they came in. *)
Lemma insert_row_same_key k r df :
  filter (fun x => row_key x = k) (insert_row r df)
  = filter (fun x => row_key x = k) (r :: df).
Proof.
  induction df as [|r' df IH]; simpl; [done|].
  case_decide as Hle; [done|].
  destruct (decide (row_key r = k)) as [Hr|Hr].
  - assert (row_key r' <> k) as Hr'.
    { intros Hr'. apply Hle, row_le_same_key. congruence. }
    rewrite (filter_cons_True _ r (r' :: df)) by done.
    rewrite !filter_cons_False by done. rewrite IH.
    by rewrite filter_cons_True by done.
  - rewrite (filter_cons_False _ r (r' :: df)) by done.
    rewrite !(filter_cons _ r'), IH. by rewrite filter_cons_False by done.
Qed.

Lemma sort_values_same_key k df :
  filter (fun x => row_key x = k) (sort_values df)
  = filter (fun x => row_key x = k) df.
Proof.
  induction df as [|r df IH]; simpl; [done|].
  by rewrite insert_row_same_key, !filter_cons, IH.
Qed.

(** *** The claims *)

(** C2 (amended).  Of the queries made for one dataset, the row count and
    the spatial reference are guarded: once the initial describe call has
    answered, the dataset gets its row whatever these two do, with a null
    field for each that raised, and the loop over the listing goes on with
    the next name. *)
Theorem guarded_queries_become_null w g gp glm parent fd name rest s desc :
  Describe w (os_path_join w parent name) = Ok desc ->
  exists r,
    append_dataset w g gp glm parent fd name s = (Ok tt, appended r s) /\
    for_each (name :: rest) (append_dataset w g gp glm parent fd) s
      = for_each rest (append_dataset w g gp glm parent fd) (appended r s) /\
    Dataset_Name r = d_name desc /\
    (is_ok (GetCount w (os_path_join w parent name)) = false ->
     Feature_Count r = None) /\
    (forall sr, d_spatialReference desc = Some sr ->
                is_ok (sr_name sr) = false -> Spatial_Reference r = None).
Proof.
  intros H.
  destruct (describe_dataset_ok w g gp glm _ fd s desc H)
    as (r & Hr & _ & _ & Hn & _ & _ & Hc & _ & Hsr).
  exists r.
  assert (append_dataset w g gp glm parent fd name s = (Ok tt, appended r s))
    as Ha by (unfold append_dataset; by erewrite bind_ok by exact Hr).
  repeat split; try done.
  by apply for_each_cons_ok.
Qed.

Lemma guarded_queries_become_null_witness :
  let w := CatalogScenario.city in
  exists r,
    append_dataset w "a.gdb" "D:/gis/a.gdb" None "D:/gis/a.gdb/transport"
      (Some "transport") "bridges" CatalogScenario.fresh
      = (Ok tt, appended r CatalogScenario.fresh) /\
    for_each ["bridges"]
      (append_dataset w "a.gdb" "D:/gis/a.gdb" None "D:/gis/a.gdb/transport"
         (Some "transport")) CatalogScenario.fresh
      = for_each []
          (append_dataset w "a.gdb" "D:/gis/a.gdb" None "D:/gis/a.gdb/transport"
             (Some "transport")) (appended r CatalogScenario.fresh) /\
    Dataset_Name r = "bridges" /\
    (is_ok (GetCount w "D:/gis/a.gdb/transport/bridges") = false ->
     Feature_Count r = None) /\
    (forall sr, Some CatalogScenario.unreadable = Some sr ->
                is_ok (sr_name sr) = false -> Spatial_Reference r = None).
Proof.
  apply (guarded_queries_become_null CatalogScenario.city "a.gdb" "D:/gis/a.gdb"
           None "D:/gis/a.gdb/transport" (Some "transport") "bridges" []
           CatalogScenario.fresh CatalogScenario.bridges_desc).
  reflexivity.
Defined.

(** C2, as first stated, fails: the initial describe call is not guarded.
    When [parcels], the first dataset met, cannot be described, the
    exception leaves the inventory; the second geodatabase is never
    scanned, no row is returned and nothing is written. *)
Lemma describe_failure_ends_the_scan :
  let w := CatalogScenario.city_broken in
  Describe w "D:/gis/b.GDB/parcels" = Raise (ExecuteError "failed to describe") /\
  fst (inventory_geodatabases w (ROOT_DIR w) CatalogScenario.fresh)
    = Raise (ExecuteError "failed to describe") /\
  stdout (snd (inventory_geodatabases w (ROOT_DIR w) CatalogScenario.fresh))
    = ["Scanning geodatabase: D:/gis/b.GDB"] /\
  fst (main w CatalogScenario.fresh) = Raise (ExecuteError "failed to describe") /\
  files (snd (main w CatalogScenario.fresh)) = ∅.
Proof. vm_compute. repeat split; reflexivity. Qed.

(** C7.  A feature class or table whose row count cannot be read still
    gets its row, with a null feature count, and the loop over the listing
    goes on with the next name. *)
Theorem failed_count_leaves_null w g gp glm parent fd name rest s desc e :
  Describe w (os_path_join w parent name) = Ok desc ->
  d_datasetType desc = Some "FeatureClass" \/ d_datasetType desc = Some "Table" ->
  GetCount w (os_path_join w parent name) = Raise e ->
  exists r,
    append_dataset w g gp glm parent fd name s = (Ok tt, appended r s) /\
    Dataset_Name r = d_name desc /\
    d_datasetType desc = Some (Dataset_Type r) /\
    Feature_Count r = None /\
    for_each (name :: rest) (append_dataset w g gp glm parent fd) s
      = for_each rest (append_dataset w g gp glm parent fd) (appended r s).
Proof.
  intros H Hty Hcount.
  destruct (describe_dataset_ok w g gp glm _ fd s desc H)
    as (r & Hr & _ & _ & Hn & _ & Ht & Hc & _).
  exists r.
  assert (append_dataset w g gp glm parent fd name s = (Ok tt, appended r s))
    as Ha by (unfold append_dataset; by erewrite bind_ok by exact Hr).
  repeat split; try done.
  - rewrite Ht. by destruct Hty as [-> | ->].
  - apply Hc. by rewrite Hcount.
  - by apply for_each_cons_ok.
Qed.

Lemma failed_count_leaves_null_witness :
  let w := CatalogScenario.city in
  exists r,
    append_dataset w "a.gdb" "D:/gis/a.gdb" None "D:/gis/a.gdb" None "roads"
      CatalogScenario.fresh = (Ok tt, appended r CatalogScenario.fresh) /\
    Dataset_Name r = "roads" /\
    Some "FeatureClass" = Some (Dataset_Type r) /\
    Feature_Count r = None /\
    for_each ["roads"; "rivers"]
      (append_dataset w "a.gdb" "D:/gis/a.gdb" None "D:/gis/a.gdb" None)
      CatalogScenario.fresh
      = for_each ["rivers"]
          (append_dataset w "a.gdb" "D:/gis/a.gdb" None "D:/gis/a.gdb" None)
          (appended r CatalogScenario.fresh).
Proof.
  apply (failed_count_leaves_null CatalogScenario.city "a.gdb" "D:/gis/a.gdb"
           None "D:/gis/a.gdb" None "roads" ["rivers"] CatalogScenario.fresh
           CatalogScenario.roads_desc (ExecuteError "cannot acquire a lock"));
    [reflexivity | left; reflexivity | reflexivity].
Defined.

(** C4.  When the walk returns records, the spreadsheet holds exactly
    these records, in ascending order of the key (geodatabase name,
    feature-dataset name with the missing ones last, dataset name); the
    order looks at the key alone, so rows with the same key are equivalent
    for it and nothing is required between them. *)
Theorem spreadsheet_sorted_by_key w s recs :
  fst (walk w s) = Ok recs ->
  recs <> [] ->
  exists rows,
    fst (main w s) = Ok tt /\
    files (snd (main w s)) !! OUTPUT_EXCEL w = Some rows /\
    rows ≡ₚ recs /\
    StronglySorted row_le rows /\
    (forall a b, row_key a = row_key b -> row_le a b /\ row_le b a).
Proof.
  intros Hw Hne. rewrite main_walk.
  destruct (walk w s) as [[[|r l]|e] s1]; simpl in Hw; simplify_eq.
  exists (sort_values (r :: l)). simpl.
  rewrite lookup_insert_eq.
  split; [done|]. split; [done|].
  split; [apply (sort_values_Permutation (r :: l))|].
  split; [apply (sort_values_StronglySorted (r :: l))|].
  apply row_le_same_key.
Qed.

Lemma spreadsheet_sorted_by_key_witness :
  let w := CatalogScenario.city in
  exists rows,
    fst (main w CatalogScenario.fresh) = Ok tt /\
    files (snd (main w CatalogScenario.fresh)) !! "D:/out/inventory.xlsx"
      = Some rows /\
    rows ≡ₚ records (snd (walk w CatalogScenario.fresh)) /\
    StronglySorted row_le rows /\
    (forall a b, row_key a = row_key b -> row_le a b /\ row_le b a).
Proof.
  apply (spreadsheet_sorted_by_key CatalogScenario.city CatalogScenario.fresh);
    [vm_compute; reflexivity | vm_compute; discriminate].
Defined.

(** C5.  When the walk returns no record, and so when no directory entry
    of the walk carries the suffix, the run prints that no datasets were
    found and ends without writing a file. *)
Theorem no_datasets_no_spreadsheet w s :
  fst (walk w s) = Ok [] \/ candidates w (ROOT_DIR w) = [] ->
  fst (main w s) = Ok tt /\
  files (snd (main w s)) = files s /\
  stdout (snd (main w s))
    = stdout (snd (walk w s)) ++ ["No datasets found."] /\
  (candidates w (ROOT_DIR w) = [] ->
   stdout (snd (main w s))
     = stdout s ++ [starting_line w; "No datasets found."]).
Proof.
  intros H.
  assert (fst (walk w s) = Ok []) as Hw.
  { destruct H as [H|H]; [done|]. by apply walk_no_candidate. }
  pose proof (keeps_files_inventory w (ROOT_DIR w)
                (snd (print (starting_line w) s))) as Hf.
  fold (walk w s) in Hf. simpl in Hf.
  rewrite main_walk.
  destruct (walk w s) as [[[|r l]|e] s1] eqn:Hwalk; simpl in Hw; simplify_eq.
  simpl in *. repeat split; try done.
  intros Hc. destruct (walk_no_candidate w s Hc) as [_ Hs].
  rewrite Hwalk in Hs. simpl in Hs. rewrite Hs. by rewrite <- app_assoc.
Qed.

Lemma no_datasets_no_spreadsheet_witness :
  let w := CatalogScenario.no_gdb in
  fst (main w CatalogScenario.fresh) = Ok tt /\
  files (snd (main w CatalogScenario.fresh)) = ∅ /\
  stdout (snd (main w CatalogScenario.fresh))
    = stdout (snd (walk w CatalogScenario.fresh)) ++ ["No datasets found."] /\
  (candidates w (ROOT_DIR w) = [] ->
   stdout (snd (main w CatalogScenario.fresh))
     = ["Starting geodatabase inventory for: D:/gis"; "No datasets found."]).
Proof.
  apply (no_datasets_no_spreadsheet CatalogScenario.no_gdb CatalogScenario.fresh).
  right. reflexivity.
Defined.

(** In [city] arcpy answers every call of the inventory of [a.gdb]. *)
Example city_inventory_answers :
  inventory_answers CatalogScenario.city "D:/gis/a.gdb".
Proof.
  assert (forall k ws l,
            arcpy_list CatalogScenario.city k (Some ws) = Ok (Some l) ->
            Forall (fun name =>
                      is_ok (Describe CatalogScenario.city
                               (os_path_join CatalogScenario.city ws name)) = true) l ->
            listing_answers CatalogScenario.city k ws) as Hsome.
  { intros k ws l Hl Hall. split; [by rewrite Hl|].
    unfold listed. rewrite Hl. simpl. by apply Forall_forall. }
  assert (forall k ws,
            arcpy_list CatalogScenario.city k (Some ws) = Ok None ->
            listing_answers CatalogScenario.city k ws) as Hnone.
  { intros k ws Hl. split; [by rewrite Hl|].
    unfold listed. rewrite Hl. simpl. by intros name ?%elem_of_nil. }
  split; [eapply Hsome; [reflexivity|by repeat constructor]|].
  split; [reflexivity|].
  split.
  { intros fds Hfds.
    change (feature_datasets CatalogScenario.city "D:/gis/a.gdb")
      with ["transport"] in Hfds.
    apply list_elem_of_singleton in Hfds as ->.
    eapply Hsome; [reflexivity|by repeat constructor]. }
  split; [eapply Hsome; [reflexivity|by repeat constructor]|].
  by apply Hnone.
Qed.

(** C8 (amended).  The inventory of one geodatabase begins by setting the
    workspace to the geodatabase and listing the feature classes there:
    these two steps are made in every run, completed or not.  What follows
    is a prefix of the ideal sequence: the feature datasets are listed; for
    each of them the workspace goes to it, its feature classes are listed
    and the workspace is set back to the geodatabase; tables and rasters
    are listed; the workspace is cleared.  So every listing of feature
    datasets, tables and rasters that is made is made with the workspace at
    the geodatabase, and every listing of feature classes with the
    workspace at the geodatabase or at one of its feature datasets.  A run
    that completes has made all the steps and leaves the workspace cleared;
    it completes whenever arcpy answers the listings and the describe call
    of every name listed.  A run that an exception cuts short restores and
    clears nothing: the workspace stays at the geodatabase or at the
    feature dataset where the exception was raised. *)
Theorem workspace_set_first_cleared_on_completion w dirpath dirname s :
  let gdb := os_path_join w dirpath dirname in
  let r := gdb_body w dirpath dirname s in
  exists evs rest,
    trace (snd r) = trace s ++ evs /\
    evs = SetWorkspace (Some gdb) :: Listing ListFeatureClasses (Some gdb) :: rest /\
    evs `prefix_of` gdb_trace w gdb (feature_datasets w gdb) /\
    (forall k ws, Listing k ws ∈ evs -> k <> ListFeatureClasses -> ws = Some gdb) /\
    (forall ws, Listing ListFeatureClasses ws ∈ evs -> inside w gdb ws) /\
    (fst r = Ok tt ->
     evs = gdb_trace w gdb (feature_datasets w gdb) /\ workspace (snd r) = None) /\
    (forall e, fst r = Raise e -> inside w gdb (workspace (snd r))) /\
    (inventory_answers w gdb -> fst r = Ok tt).
Proof.
  simpl. destruct (trace_gdb_body w dirpath dirname s) as (evs & Ht & Hp & Hok).
  pose proof (ends_gdb_body w dirpath dirname s) as He.
  simpl in He. unfold ends in He.
  assert (exists rest,
            evs = SetWorkspace (Some (os_path_join w dirpath dirname))
                  :: Listing ListFeatureClasses (Some (os_path_join w dirpath dirname))
                  :: rest) as [rest Hrest].
  { assert (trace s ++ [SetWorkspace (Some (os_path_join w dirpath dirname));
                        Listing ListFeatureClasses
                          (Some (os_path_join w dirpath dirname))]
              `prefix_of` trace (snd (gdb_body w dirpath dirname s)))
      as [rest Hb]
      by (destruct (gdb_body w dirpath dirname s) as [[?|?] ?]; apply He).
    exists rest. rewrite Ht, <- app_assoc in Hb. by apply app_inv_head in Hb. }
  exists evs, rest. split; [done|]. split; [done|]. split; [done|].
  assert (forall ev, ev ∈ evs ->
            ev ∈ gdb_trace w (os_path_join w dirpath dirname)
                   (feature_datasets w (os_path_join w dirpath dirname)))
    as Hin.
  { intros ev Hev. destruct Hp as [k ->]. apply elem_of_app. by left. }
  split.
  { intros k ws Hev Hk. apply Hin in Hev. unfold gdb_trace in Hev.
    rewrite !elem_of_app, list_elem_of_bind in Hev.
    unfold fds_trace in Hev. repeat setoid_rewrite elem_of_cons in Hev.
    setoid_rewrite elem_of_nil in Hev.
    destruct Hev as [Hev|[(fds & Hev & Hfds)|Hev]];
      destruct_or?; by simplify_eq. }
  split.
  { intros ws Hev. apply Hin in Hev. unfold gdb_trace in Hev.
    rewrite !elem_of_app, list_elem_of_bind in Hev.
    unfold fds_trace in Hev. repeat setoid_rewrite elem_of_cons in Hev.
    setoid_rewrite elem_of_nil in Hev. unfold inside.
    destruct Hev as [Hev|[(fds & Hev & Hfds)|Hev]];
      destruct_or?; simplify_eq; try done; eauto. }
  split.
  { intros H. apply Hok. by rewrite H. }
  destruct (gdb_body w dirpath dirname s) as [[[]|e] s']; simpl in *.
  - split; [done|]. done.
  - destruct He as (_ & Hi & Hn). split; [by intros ? _|]. intros Ha. done.
Qed.

Lemma workspace_set_first_cleared_on_completion_witness :
  let r := gdb_body CatalogScenario.city "D:/gis" "a.gdb" CatalogScenario.fresh in
  fst r = Ok tt /\
  trace (snd r) = gdb_trace CatalogScenario.city "D:/gis/a.gdb" ["transport"] /\
  workspace (snd r) = None.
Proof.
  destruct (workspace_set_first_cleared_on_completion
              CatalogScenario.city "D:/gis" "a.gdb" CatalogScenario.fresh)
    as (evs & rest & Ht & _ & _ & _ & _ & Hok & _ & Hrun).
  pose proof (Hrun city_inventory_answers) as Hr.
  destruct (Hok Hr) as [Hevs Hw].
  split; [exact Hr|]. split; [|exact Hw].
  rewrite Ht, Hevs. reflexivity.
Defined.

(** C8, as first stated, fails: nothing restores the workspace when an
    exception leaves the loops.  When [bridges], inside the feature dataset
    [transport], cannot be described, the inventory of [a.gdb] ends after
    the nested listing: the workspace is not set back to the geodatabase,
    tables and rasters are not listed, nothing is cleared, and the run ends
    with the workspace still at the feature dataset. *)
Lemma nested_failure_leaves_the_workspace :
  let w := CatalogScenario.city_nested_broken in
  let r := gdb_body w "D:/gis" "a.gdb" CatalogScenario.fresh in
  fst r = Raise (ExecuteError "failed to describe") /\
  trace (snd r)
    = [ SetWorkspace (Some "D:/gis/a.gdb");
        Listing ListFeatureClasses (Some "D:/gis/a.gdb");
        Listing ListDatasets (Some "D:/gis/a.gdb");
        SetWorkspace (Some "D:/gis/a.gdb/transport");
        Listing ListFeatureClasses (Some "D:/gis/a.gdb/transport") ] /\
  workspace (snd r) = Some "D:/gis/a.gdb/transport" /\
  fst (main w CatalogScenario.fresh) = Raise (ExecuteError "failed to describe") /\
  workspace (snd (main w CatalogScenario.fresh)) = Some "D:/gis/a.gdb/transport".
Proof. vm_compute. repeat split; reflexivity. Qed.

(** C10.  The geodatabases scanned are the directory names of the walk
    that carry the suffix, in the order of the walk: the scanning lines of
    a run are a prefix of the lines of these candidates, and all of them
    when the run completes; a candidate is a directory name of some triple
    of the walk whose lower-case form ends in [.gdb], whatever the case of
    its letters; the file names of the triples change nothing. *)
Theorem candidates_are_directory_names w root s :
  let r := inventory_geodatabases w root s in
  (exists lines,
     stdout (snd r) = stdout s ++ lines /\
     lines `prefix_of` (scanning_line <$> candidates w root) /\
     (is_ok (fst r) = true -> lines = scanning_line <$> candidates w root)) /\
  (forall p,
     p ∈ candidates w root <->
     exists dirpath dirnames filenames d,
       (dirpath, dirnames, filenames) ∈ os_walk w root /\
       d ∈ dirnames /\
       endswith (lower d) ".gdb" = true /\
       p = os_path_join w dirpath d) /\
  (forall stem ext, lower ext = ".gdb" -> is_gdb_name (stem +:+ ext) = true) /\
  inventory_geodatabases (ignore_files w) root s = r.
Proof.
  simpl. split.
  { destruct (stdout_inventory w root s) as (lines & Hs & Hp & Hok).
    exists lines. split; [done|]. split; [done|]. intros H. by apply Hok. }
  split; [apply elem_of_candidates|].
  split; [apply is_gdb_name_any_case|].
  apply inventory_ignore_files.
Qed.

(** *** The scenarios, run *)

(** The inventory of [city]: both folders are scanned, the plain file
    [fake.gdb] is not; [a.gdb] goes through its feature dataset and back. *)
Example city_run :
  let w := CatalogScenario.city in
  let s' := snd (main w CatalogScenario.fresh) in
  candidates w "D:/gis" = ["D:/gis/b.GDB"; "D:/gis/a.gdb"] /\
  trace s' = gdb_trace w "D:/gis/b.GDB" [] ++ gdb_trace w "D:/gis/a.gdb" ["transport"] /\
  workspace s' = None /\
  (map (fun r => (GDB_Name r, Feature_Dataset r, Dataset_Name r, Feature_Count r))
     <$> files s' !! "D:/out/inventory.xlsx")
  = Some [ ("a.gdb", Some "transport", "bridges", Some 42%Z);
           ("a.gdb", None, "owners", Some 42%Z);
           ("a.gdb", None, "roads", None);
           ("b.GDB", None, "parcels", Some 42%Z) ].
Proof. vm_compute. repeat split; reflexivity. Qed.

End CatalogProofs.

(** ** Beyond the claims: the layer metadata report *)

Module MetadataExtras.
Import LayerMetadata MetadataNotions StringFacts PyFacts MetadataProofs.

(** *** What the blocks leave alone *)

Lemma xkeeps_ret {A B} (f : xstate -> B) (a : A) : xkeeps f (ret a).
Proof. by intros x. Qed.

Lemma xkeeps_bind {A B C} (f : xstate -> C) (m : M xstate A)
    (k : A -> M xstate B) :
  xkeeps f m -> (forall a, xkeeps f (k a)) -> xkeeps f (bind m k).
Proof.
  intros Hm Hk x. unfold bind. specialize (Hm x).
  destruct (m x) as [[a|e] x']; simpl in *; [|done]. by rewrite Hk.
Qed.

Lemma xkeeps_try_except {A B} (f : xstate -> B) (m : M xstate A)
    (h : exn -> M xstate A) :
  xkeeps f m -> (forall e, xkeeps f (h e)) -> xkeeps f (try_except m h).
Proof.
  intros Hm Hh x. unfold try_except. specialize (Hm x).
  destruct (m x) as [[a|e] x']; simpl in *; [done|]. by rewrite Hh.
Qed.

Lemma xkeeps_for_each {A B} (f : xstate -> B) (l : list A)
    (body : A -> M xstate unit) :
  (forall a, xkeeps f (body a)) -> xkeeps f (for_each l body).
Proof.
  intros Hb. induction l as [|a l IH]; [apply xkeeps_ret|].
  simpl. apply xkeeps_bind; [apply Hb|]. by intros _.
Qed.

Lemma xkeeps_lift {A B} (f : xstate -> B) (r : result A) : xkeeps f (lift r).
Proof. by intros x. Qed.

Ltac xkeeps_step :=
  first [ apply xkeeps_ret | apply xkeeps_lift
        | apply xkeeps_for_each | apply xkeeps_try_except
        | apply xkeeps_bind | by intros ? ].

(** The layer loop appends sections only: the table of contents and the
    console are not touched. *)
Lemma xkeeps_layer_body {B} (f : xstate -> B) w l :
  (forall s x, f (sections_added [Str s] x) = f x) ->
  xkeeps f (layer_body w l).
Proof.
  intros Hf.
  assert (forall s, xkeeps f (data_list_append s)) as Happ.
  { intros s x. apply Hf. }
  unfold layer_body.
  apply xkeeps_bind; [apply xkeeps_lift|]. intros [|]; [|apply xkeeps_ret].
  repeat (intros; first [ apply Happ | xkeeps_step
                        | match goal with
                          | |- xkeeps _ (match ?o with _ => _ end) =>
                              destruct o as [[? ?]|]
                          end ]).
Qed.

(** *** What the blocks append *)

Lemma xgrows_ret {A} (a : A) : xgrows (ret a).
Proof. by intros x. Qed.

Lemma xgrows_bind {A B} (m : M xstate A) (k : A -> M xstate B) :
  xgrows m -> (forall a, xgrows (k a)) -> xgrows (bind m k).
Proof.
  intros Hm Hk x. unfold bind. specialize (Hm x).
  destruct (m x) as [[a|e] x']; simpl in *; [|done].
  etrans; [exact Hm|apply Hk].
Qed.

Lemma xgrows_try_except {A} (m : M xstate A) (h : exn -> M xstate A) :
  xgrows m -> (forall e, xgrows (h e)) -> xgrows (try_except m h).
Proof.
  intros Hm Hh x. unfold try_except. specialize (Hm x).
  destruct (m x) as [[a|e] x']; simpl in *; [done|].
  etrans; [exact Hm|apply Hh].
Qed.

Lemma xgrows_for_each {A} (l : list A) (body : A -> M xstate unit) :
  (forall a, xgrows (body a)) -> xgrows (for_each l body).
Proof.
  intros Hb. induction l as [|a l IH]; [apply xgrows_ret|].
  simpl. apply xgrows_bind; [apply Hb|]. by intros _.
Qed.

Lemma xgrows_lift {A} (r : result A) : xgrows (lift r).
Proof. by intros x. Qed.

Lemma xgrows_append s : xgrows (data_list_append s).
Proof. intros x. simpl. by apply prefix_app_r. Qed.

Ltac xgrows_step :=
  first [ apply xgrows_ret | apply xgrows_lift | apply xgrows_append
        | apply xgrows_for_each | apply xgrows_try_except
        | apply xgrows_bind | by intros ? ].

Lemma xgrows_layer_body w l : xgrows (layer_body w l).
Proof.
  unfold layer_body.
  apply xgrows_bind; [apply xgrows_lift|]. intros [|]; [|apply xgrows_ret].
  repeat (intros; first [ xgrows_step
                        | match goal with
                          | |- xgrows (match ?o with _ => _ end) =>
                              destruct o as [[? ?]|]
                          end ]).
Qed.

(** *** One layer *)

(** X1.  A layer that supports a data source and whose name and source can be
    read never raises: it appends its header, the source times when the
    source exists and can be read, then one item for the fields, one for the
    properties and one for the symbology, each the section or the error
    note of its block, in this order.  A failure in one block does not
    keep the later ones from running. *)
Theorem layer_blocks_are_isolated w l x name src :
  supports_DATASOURCE l = Ok true ->
  layer_name l = Ok name ->
  layer_dataSource l = Ok src ->
  layer_body w l x
  = (Ok tt,
     sections_added
       ([Str (layer_info name src)] ++ source_section w src
        ++ [Str (fields_section w src); Str (props_section l);
            Str (symbology_section l)]) x).
Proof.
  intros Hs Hn Hd.
  unfold layer_body, bind, try_except, lift, ret, data_list_append, modify,
    sections_added, source_section, fields_section, props_section,
    symbology_section.
  rewrite Hs, Hn, Hd. simpl.
  destruct (source_stat w src) as [[[c m]|]|e1];
    destruct (da_Describe_fields w src) as [fs0|e2];
    destruct (layer_props l) as [pr|e3];
    destruct (layer_symbology l) as [sy|e4];
    simpl; rewrite <- ?app_assoc; reflexivity.
Qed.

Lemma layer_blocks_are_isolated_witness :
  layer_body MetadataScenario.two_files MetadataScenario.roads ExtraScenario.start
  = (Ok tt,
     sections_added
       ([Str (layer_info "roads" "C:/data/city.gdb/roads")]
        ++ source_section MetadataScenario.two_files "C:/data/city.gdb/roads"
        ++ [Str (fields_section MetadataScenario.two_files "C:/data/city.gdb/roads");
            Str ("Error reading layer properties: metadata" +:+ nl +:+ nl);
            Str (symbology_section MetadataScenario.roads)])
       ExtraScenario.start).
Proof.
  apply (layer_blocks_are_isolated MetadataScenario.two_files
           MetadataScenario.roads ExtraScenario.start
           "roads" "C:/data/city.gdb/roads"); reflexivity.
Defined.

(** *** One file *)

Lemma file_body_ok w f x : fst (file_body w f x) = Ok tt.
Proof.
  unfold file_body, try_except.
  match goal with |- context [match ?m x with _ => _ end] =>
    destruct (m x) as [[[]|e] x']
  end; done.
Qed.

(** A file that is opened: its file information and its line of contents
    are appended, then its layers are gone through; an exception among
    them is printed and goes no further. *)
Lemma file_body_opened w f x lf st :
  LayerFile w f = Ok lf -> os_stat w f = Ok st ->
  file_body w f x =
  match layers_part w lf (entered w f st x) with
  | (Ok u, x') => (Ok u, x')
  | (Raise e, x') => (Ok tt, reported (error_line f e) x')
  end.
Proof.
  intros Hl Hs.
  unfold file_body, try_except, bind, lift. rewrite Hl, Hs. simpl.
  unfold layers_part, bind, lift, entered.
  destruct (listLayers lf) as [layers|e]; done.
Qed.

(** A file that is not opened: only the error is printed. *)
Lemma file_body_not_opened w f x :
  opened w f = false ->
  exists e, file_body w f x = (Ok tt, reported (error_line f e) x).
Proof.
  unfold opened, file_body, try_except, bind, lift.
  destruct (LayerFile w f) as [lf|e]; [|by exists e].
  destruct (os_stat w f) as [st|e]; [done|by exists e].
Qed.

Lemma xkeeps_layers_part {B} (f : xstate -> B) w lf :
  (forall s x, f (sections_added [Str s] x) = f x) ->
  xkeeps f (layers_part w lf).
Proof.
  intros Hf. unfold layers_part.
  apply xkeeps_bind; [apply xkeeps_lift|]. intros layers.
  apply xkeeps_for_each. intros l. by apply xkeeps_layer_body.
Qed.

Lemma xgrows_layers_part w lf : xgrows (layers_part w lf).
Proof.
  unfold layers_part.
  apply xgrows_bind; [apply xgrows_lift|]. intros layers.
  apply xgrows_for_each. intros l. apply xgrows_layer_body.
Qed.

Lemma file_body_contents w f x :
  contents (snd (file_body w f x))
  = contents x ++ (if opened w f then [toc_entry f] else []).
Proof.
  destruct (opened w f) eqn:Ho.
  - unfold opened in Ho.
    destruct (LayerFile w f) as [lf|] eqn:Hl; [|done].
    destruct (os_stat w f) as [st|] eqn:Hs; [|done].
    rewrite (file_body_opened w f x lf st Hl Hs).
    pose proof (xkeeps_layers_part contents w lf (fun _ _ => eq_refl)
                  (entered w f st x)) as Hk.
    destruct (layers_part w lf (entered w f st x)) as [[[]|e] x']; exact Hk.
  - destruct (file_body_not_opened w f x Ho) as [e ->]. simpl.
    by rewrite app_nil_r.
Qed.

Lemma file_body_data_list w f x :
  match LayerFile w f, os_stat w f with
  | Ok _, Ok st =>
      exists more,
        data_list (snd (file_body w f x))
        = data_list x ++ Str (file_info w f st) :: more
  | _, _ => data_list (snd (file_body w f x)) = data_list x
  end.
Proof.
  destruct (LayerFile w f) as [lf|e1] eqn:Hl.
  - destruct (os_stat w f) as [st|e2] eqn:Hs.
    + rewrite (file_body_opened w f x lf st Hl Hs).
      destruct (xgrows_layers_part w lf (entered w f st x)) as [more Hm].
      exists more.
      destruct (layers_part w lf (entered w f st x)) as [[[]|e] x'];
        simpl in *; by rewrite Hm, <- app_assoc.
    + destruct (file_body_not_opened w f x) as [e ->]; [|done].
      unfold opened. by rewrite Hl, Hs.
  - destruct (file_body_not_opened w f x) as [e ->]; [|done].
    unfold opened. by rewrite Hl.
Qed.

Lemma xgrows_file_body w f : xgrows (file_body w f).
Proof.
  intros x. pose proof (file_body_data_list w f x) as H.
  destruct (LayerFile w f); [destruct (os_stat w f)|]; try by rewrite H.
  destruct H as [more ->]. by apply prefix_app_r.
Qed.

(** *** The loop over the files *)

Lemma files_loop w files x :
  fst (for_each files (file_body w) x) = Ok tt /\
  contents (snd (for_each files (file_body w) x))
  = contents x ++ (toc_entry <$> filter (fun f => Is_true (opened w f)) files).
Proof.
  revert x. induction files as [|f files IH]; intros x.
  - simpl. by rewrite app_nil_r.
  - simpl. unfold bind.
    pose proof (file_body_ok w f x) as Hok.
    pose proof (file_body_contents w f x) as Hc.
    destruct (file_body w f x) as [[[]|e] x1]; simpl in *; [|done].
    destruct (IH x1) as [-> ->]. split; [done|].
    rewrite Hc, filter_cons.
    destruct (opened w f); simpl; by rewrite <- ?app_assoc, ?app_nil_r.
Qed.

Lemma extract_state_contents w files :
  contents (extract_state w files) = toc_of w files.
Proof.
  unfold extract_state, toc_of.
  by destruct (files_loop w files {| data_list := []; contents := [contents_header];
                                     printed := [] |}) as [_ ->].
Qed.

(** X2.  The loop over the files never raises, and the table of contents it
    leaves holds a line for each file that was opened, in the order of the
    files: also for a file whose layers raised later on. *)
Theorem contents_lists_the_opened_files w files x :
  fst (for_each files (file_body w) x) = Ok tt /\
  contents (snd (for_each files (file_body w) x))
  = contents x ++ (toc_entry <$> filter (fun f => Is_true (opened w f)) files) /\
  contents (extract_state w files) = toc_of w files.
Proof.
  destruct (files_loop w files x) as [H1 H2].
  split; [done|]. split; [done|]. apply extract_state_contents.
Qed.

Lemma first_opened_section w files x :
  data_list x = [] ->
  match first_opened w files with
  | Some (f, st) =>
      exists more,
        data_list (snd (for_each files (file_body w) x))
        = Str (file_info w f st) :: more
  | None => data_list (snd (for_each files (file_body w) x)) = []
  end.
Proof.
  revert x. induction files as [|f files IH]; intros x Hx; [done|].
  simpl. unfold bind.
  pose proof (file_body_ok w f x) as Hok.
  pose proof (file_body_data_list w f x) as Hd.
  destruct (file_body w f x) as [[[]|e] x1]; simpl in *; [|done].
  destruct (LayerFile w f) as [lf|e1].
  - destruct (os_stat w f) as [st|e2].
    + destruct Hd as [more Hd]. rewrite Hx in Hd. simpl in Hd.
      destruct (xgrows_for_each files (file_body w) (xgrows_file_body w) x1)
        as [k ->].
      rewrite Hd. by exists (more ++ k).
    + apply IH. by rewrite Hd.
  - apply IH. by rewrite Hd.
Qed.

Lemma first_opened_some w files :
  is_Some (first_opened w files) <-> exists f, f ∈ files /\ opened w f = true.
Proof.
  unfold opened. induction files as [|f files IH]; simpl.
  - split; [by intros [? ?]|]. intros (f & Hf & _). by apply elem_of_nil in Hf.
  - destruct (LayerFile w f) as [lf|e1] eqn:Hl;
      [destruct (os_stat w f) as [st|e2] eqn:Hs|].
    + split; [|by eauto]. intros _. exists f. rewrite Hl, Hs. split; [by left|done].
    + rewrite IH. split.
      * intros (g & Hg & Ho). exists g. split; [by right|done].
      * intros (g & Hg & Ho). apply elem_of_cons in Hg as [->|Hg].
        -- by rewrite Hl, Hs in Ho.
        -- by exists g.
    + rewrite IH. split.
      * intros (g & Hg & Ho). exists g. split; [by right|done].
      * intros (g & Hg & Ho). apply elem_of_cons in Hg as [->|Hg].
        -- by rewrite Hl in Ho.
        -- by exists g.
Qed.

(** X3.  A file that is opened and whose layers cannot be listed keeps its file
    information and its line in the table of contents; the exception is
    printed and the loop goes on. *)
Theorem unlistable_file_keeps_its_entry w f x lf st e :
  LayerFile w f = Ok lf ->
  os_stat w f = Ok st ->
  listLayers lf = Raise e ->
  file_body w f x = (Ok tt, reported (error_line f e) (entered w f st x)).
Proof.
  intros Hl Hs He. rewrite (file_body_opened w f x lf st Hl Hs).
  unfold layers_part, bind, lift. by rewrite He.
Qed.

Lemma unlistable_file_keeps_its_entry_witness :
  file_body ExtraScenario.unlistable "C:/gis/layers/a.lyrx" ExtraScenario.start
  = (Ok tt,
     reported "Error processing C:/gis/layers/a.lyrx: cannot list layers"
       (entered ExtraScenario.unlistable "C:/gis/layers/a.lyrx"
          MetadataScenario.stats ExtraScenario.start)).
Proof.
  apply (unlistable_file_keeps_its_entry ExtraScenario.unlistable
           "C:/gis/layers/a.lyrx" ExtraScenario.start ExtraScenario.no_layers
           MetadataScenario.stats (ExecuteError "cannot list layers"));
    reflexivity.
Defined.

(** *** The writer *)

(** X4.  Whatever [data_list] holds, also when the writer raises on it, a
    call of the writer reads the clock once, prints nothing and touches no
    path but its own. *)
Theorem writer_touches_its_file_only w dl p s :
  let s' := snd (write_metadata_to_file w dl p s) in
  clock_reads s' = S (clock_reads s) /\
  stdout s' = stdout s /\
  (forall p', p' <> p -> fs s' !! p' = fs s !! p').
Proof.
  assert (exists c, snd (write_metadata_to_file w dl p s) = written p c (tick s))
    as [c Hc].
  { destruct dl as [|toc [|body rest]].
    - unfold write_metadata_to_file.
      repeat (erewrite bind_ok by writer_step).
      erewrite bind_raise by reflexivity. by eexists.
    - rewrite write_metadata_to_file_short. by eexists.
    - rewrite write_metadata_to_file_ok. by eexists. }
  simpl. rewrite Hc. simpl. split; [done|]. split; [done|].
  intros p' Hp. by rewrite lookup_insert_ne.
Qed.

(** *** The run *)

Lemma extract_first_opened w files :
  match first_opened w files with
  | Some (f, st) =>
      exists more lines,
        extract_layer_metadata w files
        = (Lst (toc_of w files) :: Str (file_info w f st) :: more, lines)
  | None =>
      exists lines,
        extract_layer_metadata w files = ([Lst (toc_of w files)], lines)
  end.
Proof.
  unfold extract_layer_metadata.
  rewrite extract_state_contents.
  pose proof (first_opened_section w files ExtraScenario.start eq_refl) as H.
  change (snd (for_each files (file_body w) ExtraScenario.start))
    with (extract_state w files) in H.
  destruct (first_opened w files) as [[f st]|].
  - destruct H as [more ->]. by eexists _, _.
  - rewrite H. by eexists.
Qed.

(** X5.  In a run that completes, the report written last, the one at the
    administrative path, holds between header and footer the table of
    contents and the file information of the first file that was opened,
    whatever else the extraction returned after these two: nothing of its
    layers, nothing of the later files.  Its time stamps are the second
    reading of the clock. *)
Theorem report_is_first_file_information w s f st :
  glob_lyrx w <> [] ->
  first_opened w (glob_lyrx w) = Some (f, st) ->
  fst (main w s) = Ok tt ->
  (exists more,
     fst (extract_layer_metadata w (glob_lyrx w))
     = Lst (toc_of w (glob_lyrx w)) :: Str (file_info w f st) :: more) /\
  fs (snd (main w s)) !! admin_output_file w
  = Some (report w (Lst (toc_of w (glob_lyrx w))) (Str (file_info w f st))
            (now w (S (clock_reads s)))).
Proof.
  intros Hne Hf _.
  pose proof (extract_first_opened w (glob_lyrx w)) as Hx. rewrite Hf in Hx.
  destruct Hx as (more & lines & Hx).
  split; [exists more; by rewrite Hx|].
  rewrite (main_complete w s _ _ more lines Hne Hx). simpl.
  by rewrite lookup_insert_eq.
Qed.

Lemma report_is_first_file_information_witness :
  let w := MetadataScenario.two_files in
  (exists more,
     fst (extract_layer_metadata w (glob_lyrx w))
     = Lst (toc_of w (glob_lyrx w))
       :: Str (file_info w "C:/gis/layers/b.lyrx" MetadataScenario.stats) :: more) /\
  fs (snd (main w MetadataScenario.fresh)) !! admin_output_file w
  = Some (report w (Lst (toc_of w (glob_lyrx w)))
            (Str (file_info w "C:/gis/layers/b.lyrx" MetadataScenario.stats))
            "2024-05-03 10:00:01").
Proof.
  apply (report_is_first_file_information MetadataScenario.two_files
           MetadataScenario.fresh "C:/gis/layers/b.lyrx" MetadataScenario.stats);
    [done | reflexivity | vm_compute; reflexivity].
Defined.

Lemma prefix_app_l s t u :
  String.prefix s t = true -> String.prefix s (t +:+ u) = true.
Proof.
  revert t. induction s as [|a s IH]; intros t H; [by destruct (t +:+ u)|].
  destruct t as [|b t]; [done|]. rewrite str_app_cons. simpl in *.
  destruct (ascii_dec a b); [by apply IH|done].
Qed.

Lemma prefix_refl s : String.prefix s s = true.
Proof.
  induction s as [|a s IH]; [done|]. simpl. by destruct (ascii_dec a a).
Qed.

Lemma contains_cons n c h :
  contains n (String c h) = String.prefix n (String c h) || contains n h.
Proof. reflexivity. Qed.

Lemma contains_app_l n a b : contains n a = true -> contains n (a +:+ b) = true.
Proof.
  induction a as [|c a IH]; intros H.
  - simpl in H. rewrite orb_false_r in H.
    destruct n; [by destruct b|done].
  - rewrite str_app_cons, contains_cons. rewrite contains_cons in H.
    apply orb_true_iff in H as [H|H]; apply orb_true_iff.
    + left. by apply (prefix_app_l n (String c a) b).
    + right. by apply IH.
Qed.

Lemma contains_app_r n a b : contains n b = true -> contains n (a +:+ b) = true.
Proof.
  intros H. induction a as [|c a IH]; [done|].
  rewrite str_app_cons, contains_cons, IH. apply orb_true_r.
Qed.

Lemma contains_refl n : contains n n = true.
Proof.
  destruct n as [|c n]; [done|]. by rewrite contains_cons, prefix_refl.
Qed.

Lemma contains_concat_str n l : n ∈ l -> contains n (concat_str l) = true.
Proof.
  induction l as [|d l IH]; intros H; [by apply elem_of_nil in H|].
  rewrite concat_str_cons. apply elem_of_cons in H as [->|H].
  - apply contains_app_l, contains_refl.
  - by apply contains_app_r, IH.
Qed.

(** X6.  Every file that was opened is named in the table of contents of the
    report, whichever file the body is about. *)
Theorem report_names_every_opened_file w s f :
  f ∈ glob_lyrx w ->
  opened w f = true ->
  fst (main w s) = Ok tt /\
  exists content,
    fs (snd (main w s)) !! admin_output_file w = Some content /\
    contains (toc_entry f) content = true.
Proof.
  intros Hf Ho.
  assert (glob_lyrx w <> []) as Hne.
  { intros Hnil. rewrite Hnil in Hf. by apply elem_of_nil in Hf. }
  assert (is_Some (first_opened w (glob_lyrx w))) as [[g st] Hg].
  { apply first_opened_some. eauto. }
  pose proof (extract_first_opened w (glob_lyrx w)) as Hx. rewrite Hg in Hx.
  destruct Hx as (more & lines & Hx).
  rewrite (main_complete w s _ _ more lines Hne Hx). simpl.
  split; [done|]. eexists. split; [by rewrite lookup_insert_eq|].
  unfold report. do 2 apply contains_app_r. apply contains_app_l.
  unfold report_middle. do 16 apply contains_app_r. apply contains_app_l.
  apply contains_concat_str. simpl. unfold toc_of. right.
  apply list_elem_of_fmap. exists f. split; [done|].
  apply list_elem_of_filter. split; [by rewrite Ho|done].
Qed.

Lemma report_names_every_opened_file_witness :
  fst (main MetadataScenario.two_files MetadataScenario.fresh) = Ok tt /\
  exists content,
    fs (snd (main MetadataScenario.two_files MetadataScenario.fresh))
      !! admin_output_file MetadataScenario.two_files = Some content /\
    contains (toc_entry "C:/gis/layers/b.lyrx") content = true.
Proof.
  apply (report_names_every_opened_file MetadataScenario.two_files
           MetadataScenario.fresh "C:/gis/layers/b.lyrx");
    [by right; left | reflexivity].
Defined.

Lemma first_opened_none w files :
  (forall f, f ∈ files -> opened w f = false) ->
  first_opened w files = None /\ toc_of w files = [contents_header].
Proof.
  intros Hall. split.
  - destruct (first_opened w files) as [p|] eqn:Hf; [|done].
    assert (is_Some (first_opened w files)) as Hs by (by rewrite Hf).
    apply first_opened_some in Hs as (f & Hin & Ho).
    by rewrite (Hall f Hin) in Ho.
  - unfold toc_of. f_equal.
    induction files as [|f files IH]; [done|].
    rewrite filter_cons_False.
    + apply IH. intros g Hg. apply Hall. by right.
    + rewrite (Hall f); [by intros []|left].
Qed.

(** X7.  With layer files matched, when none of them gets past both
    [arcpy.mp.LayerFile] and [os.stat], the extraction returns the table
    of contents alone, reduced to its header, and the run does not
    complete: a failing [os.stat] on every file ends the run as a failing
    [LayerFile] does. *)
Theorem run_without_opened_file_does_not_complete w s :
  glob_lyrx w <> [] ->
  (forall f, f ∈ glob_lyrx w -> opened w f = false) ->
  fst (extract_layer_metadata w (glob_lyrx w)) = [Lst [contents_header]] /\
  fst (main w s) <> Ok tt.
Proof.
  intros Hne Hall.
  destruct (first_opened_none w (glob_lyrx w) Hall) as [Hf Htoc].
  pose proof (extract_first_opened w (glob_lyrx w)) as Hx.
  rewrite Hf, Htoc in Hx. destruct Hx as (lines & Hx).
  split; [by rewrite Hx|].
  by rewrite (main_crash w s _ lines Hne Hx).
Qed.

Lemma run_without_opened_file_does_not_complete_witness :
  let w := ExtraScenario.unreadable_stats in
  fst (extract_layer_metadata w (glob_lyrx w)) = [Lst [contents_header]] /\
  fst (main w MetadataScenario.fresh) <> Ok tt.
Proof.
  apply (run_without_opened_file_does_not_complete ExtraScenario.unreadable_stats
           MetadataScenario.fresh);
    [done | intros f _; reflexivity].
Defined.

End MetadataExtras.

(** ** Beyond the claims: the geodatabase inventory *)

Module CatalogExtras.
Import Catalog CatalogNotions StringFacts PyFacts CatalogProofs.

(** *** describe_dataset *)

(** X8.  Only a feature class gets a geometry type, and only a feature class or
    a table gets a count: for any other dataset the row has neither, also
    when the describe object shows a shape type and the row count could be
    read; a dataset without a type is recorded as [Unknown]. *)
Theorem other_datasets_get_no_count w g gp glm p fd s desc :
  Describe w p = Ok desc ->
  d_datasetType desc <> Some "FeatureClass" ->
  d_datasetType desc <> Some "Table" ->
  exists r,
    describe_dataset w g gp glm p fd s = (Ok r, s) /\
    Dataset_Type r = default "Unknown" (d_datasetType desc) /\
    Geometry_Type r = None /\
    Feature_Count r = None.
Proof.
  intros H Hfc Ht.
  unfold describe_dataset, bind, try_except, lift, ret. rewrite H.
  assert (default "Unknown" (d_datasetType desc) <> "FeatureClass") as Hfc'.
  { destruct (d_datasetType desc) as [t|]; simpl; [congruence|done]. }
  assert (default "Unknown" (d_datasetType desc) <> "Table") as Ht'.
  { destruct (d_datasetType desc) as [t|]; simpl; [congruence|done]. }
  destruct (d_spatialReference desc) as [sr|]; [destruct (sr_name sr)|];
    repeat case_decide; try tauto; eexists; (split; [reflexivity|]); simpl;
    rewrite ?decide_False by done; done.
Qed.

Lemma other_datasets_get_no_count_witness :
  exists r,
    describe_dataset ExtraScenario.rasters_only "a.gdb" "D:/gis/a.gdb" None
      "D:/gis/a.gdb/elevation" None CatalogScenario.fresh
    = (Ok r, CatalogScenario.fresh) /\
    Dataset_Type r = "RasterDataset" /\
    Geometry_Type r = None /\
    Feature_Count r = None.
Proof.
  apply (other_datasets_get_no_count ExtraScenario.rasters_only "a.gdb"
           "D:/gis/a.gdb" None "D:/gis/a.gdb/elevation" None
           CatalogScenario.fresh ExtraScenario.raster_desc);
    [reflexivity | discriminate | discriminate].
Defined.

Lemma describe_dataset_origin w g gp glm p fd s desc :
  Describe w p = Ok desc ->
  exists r,
    describe_dataset w g gp glm p fd s = (Ok r, s) /\
    row_origin r = (g, gp, glm, fd, p).
Proof.
  intros H. unfold describe_dataset, bind, try_except, lift, ret. rewrite H.
  destruct (d_spatialReference desc) as [sr|]; [destruct (sr_name sr)|];
    case_decide; try destruct (GetCount w p); by eexists.
Qed.

(** *** The records only grow *)

Lemma grows_ret {A} (a : A) : grows (ret a).
Proof. by intros s. Qed.

Lemma grows_bind {A B} (m : M state A) (k : A -> M state B) :
  grows m -> (forall a, grows (k a)) -> grows (bind m k).
Proof.
  intros Hm Hk s. unfold bind. specialize (Hm s).
  destruct (m s) as [[a|e] s']; simpl in *; [|done].
  etrans; [exact Hm|apply Hk].
Qed.

Lemma grows_for_each {A} (l : list A) (body : A -> M state unit) :
  (forall a, grows (body a)) -> grows (for_each l body).
Proof.
  intros Hb. induction l as [|a l IH]; [apply grows_ret|].
  simpl. apply grows_bind; [apply Hb|]. by intros _.
Qed.

Lemma grows_keeps {A} (m : M state A) : keeps records m -> grows m.
Proof. intros H s. by rewrite H. Qed.

Lemma grows_append_dataset w g gp glm parent fd name :
  grows (append_dataset w g gp glm parent fd name).
Proof.
  unfold append_dataset.
  apply grows_bind; [apply grows_keeps, keeps_describe_dataset|].
  intros r s. simpl. by apply prefix_app_r.
Qed.

Ltac grows_step :=
  first [ apply grows_ret
        | apply grows_append_dataset
        | apply grows_keeps, keeps_arcpy_List; by intros
        | apply grows_for_each
        | apply grows_bind
        | apply grows_keeps; by intros ? ].

Lemma grows_gdb_body w dirpath dirname : grows (gdb_body w dirpath dirname).
Proof. unfold gdb_body, for_in. cbv zeta. repeat (intros; grows_step). Qed.

(** *** Where the rows come from *)

Lemma origin_append_dataset w g gp glm parent fd name s :
  logs origins_of (append_dataset w g gp glm parent fd name) s
       [(g, gp, glm, fd, os_path_join w parent name)]
       (fun s' => workspace s' = workspace s).
Proof.
  unfold logs, origins_of.
  destruct (Describe w (os_path_join w parent name)) as [desc|e] eqn:Hd.
  - destruct (describe_dataset_origin w g gp glm _ fd s desc Hd)
      as (r & Hr & Ho).
    unfold append_dataset. erewrite bind_ok by exact Hr. simpl.
    exists [(g, gp, glm, fd, os_path_join w parent name)].
    rewrite fmap_app. simpl. by rewrite Ho.
  - rewrite (append_dataset_raise w g gp glm parent fd name s e Hd). simpl.
    exists []. rewrite app_nil_r. split; [done|]. split; [apply prefix_nil|done].
Qed.

Lemma bind_singleton_fmap {A B} (f : A -> B) (l : list A) :
  l ≫= (fun x => [f x]) = f <$> l.
Proof. induction l as [|x l IH]; [done|]. by rewrite bind_cons, IH. Qed.

Lemma logs_bind_l {A B C} (f : state -> list C) (m : M state A)
    (k : A -> M state B) s full Q1 Q2 :
  logs f m s [] Q1 ->
  (forall a s1, m s = (Ok a, s1) -> Q1 s1 -> logs f (k a) s1 full Q2) ->
  logs f (bind m k) s full Q2.
Proof. intros H1 H2. by apply (logs_bind f m k s [] full Q1 Q2). Qed.

Lemma logs_bind_r {A B C} (f : state -> list C) (m : M state A)
    (k : A -> M state B) s full Q1 Q2 :
  logs f m s full Q1 ->
  (forall a s1, m s = (Ok a, s1) -> Q1 s1 -> logs f (k a) s1 [] Q2) ->
  logs f (bind m k) s full Q2.
Proof.
  intros H1 H2. rewrite <- (app_nil_r full).
  by apply (logs_bind f m k s full [] Q1 Q2).
Qed.

Lemma logs_weaken {A B} (f : state -> list B) (m : M state A) s full
    (Q Q' : state -> Prop) :
  (forall s', Q s' -> Q' s') -> logs f m s full Q -> logs f m s full Q'.
Proof.
  intros HQ (evs & Hf & Hp & Hok). exists evs. repeat split; try done.
  - by apply Hok.
  - apply HQ. by apply Hok.
Qed.

(** The names of a listing, once the call has answered. *)
Lemma arcpy_List_listed w k ws s l s1 :
  workspace s = Some ws ->
  arcpy_List w k s = (Ok l, s1) ->
  l = listed w k ws /\ workspace s1 = Some ws /\ origins_of s1 = origins_of s.
Proof.
  intros Hw Hl. unfold arcpy_List in Hl. rewrite Hw in Hl. unfold listed.
  destruct (arcpy_list w k (Some ws)); by simplify_eq.
Qed.

Lemma origin_arcpy_List w k ws s :
  workspace s = Some ws ->
  logs origins_of (arcpy_List w k) s [] (fun s' => workspace s' = Some ws).
Proof.
  intros Hw. destruct (arcpy_List_state w k s) as [_ Hw'].
  exists []. rewrite app_nil_r.
  split; [|split; [done|by rewrite Hw', Hw]].
  unfold arcpy_List. by destruct (arcpy_list w k (workspace s)).
Qed.

Lemma origin_for_in w k g gp glm parent fd ws s :
  workspace s = Some ws ->
  logs origins_of
       (for_in (arcpy_List w k) (append_dataset w g gp glm parent fd)) s
       ((fun name => (g, gp, glm, fd, os_path_join w parent name))
          <$> listed w k ws)
       (fun s' => workspace s' = Some ws).
Proof.
  intros Hw. unfold for_in.
  eapply logs_bind_l; [by apply origin_arcpy_List|].
  intros l s1 Hl Hw1.
  destruct (arcpy_List_listed w k ws s l s1 Hw Hl) as (-> & _ & _).
  rewrite <- bind_singleton_fmap.
  apply logs_for_each; [done|]. intros name s0 Hw0.
  rewrite <- Hw0. apply origin_append_dataset.
Qed.

Lemma origin_set_workspace ws s :
  logs origins_of (set_workspace ws) s [] (fun s' => workspace s' = ws).
Proof. exists []. unfold origins_of. simpl. by rewrite app_nil_r. Qed.

Lemma origin_gdb_body w dirpath dirname s :
  logs origins_of (gdb_body w dirpath dirname) s
       (gdb_origins w dirpath dirname) (fun _ => True).
Proof.
  unfold gdb_body, gdb_origins. cbv zeta.
  fold (gdb_last_modified w (os_path_join w dirpath dirname)).
  set (gdb := os_path_join w dirpath dirname).
  set (glm := gdb_last_modified w gdb).
  eapply logs_bind_l; [apply logs_keeps; by intros ?|]. intros _ s1 _ _.
  eapply logs_bind_l; [apply origin_set_workspace|]. intros _ s2 _ Hw2.
  eapply logs_bind; [by apply origin_for_in|]. intros _ s3 _ Hw3.
  eapply logs_bind.
  { unfold for_in. simpl in Hw3.
    eapply logs_bind_l; [exact (origin_arcpy_List w ListDatasets gdb s3 Hw3)|].
    intros l s4 Hl Hw4.
    destruct (arcpy_List_listed w ListDatasets gdb s3 l s4 Hw3 Hl)
      as (-> & _ & _).
    apply (logs_for_each origins_of _ _ (fun s' => workspace s' = Some gdb));
      [done|].
    intros fds s0 Hw0.
    eapply logs_bind_l; [apply origin_set_workspace|]. intros _ s5 _ Hw5.
    eapply logs_bind_r; [by apply origin_for_in|]. intros _ s6 _ _.
    apply origin_set_workspace. }
  intros _ s7 _ Hw7.
  eapply logs_bind; [by apply origin_for_in|]. intros _ s8 _ Hw8.
  eapply logs_bind_r; [by apply origin_for_in|]. intros _ s9 _ _.
  eapply logs_weaken, origin_set_workspace. done.
Qed.

(** The rows a statement adds, read off its log of origins. *)
Lemma rows_of_logs {A} (m : M state A) s full Q :
  grows m ->
  logs origins_of m s full Q ->
  exists rows,
    records (snd (m s)) = records s ++ rows /\
    (row_origin <$> rows) `prefix_of` full /\
    (is_ok (fst (m s)) = true -> row_origin <$> rows = full).
Proof.
  intros Hg (evs & He & Hp & Hok). destruct (Hg s) as [rows Hr].
  exists rows. split; [done|].
  unfold origins_of in He. rewrite Hr, fmap_app in He.
  apply app_inv_head in He as ->. split; [done|].
  intros H. by apply Hok.
Qed.

(** X9.  One row per listed dataset: the inventory of a geodatabase appends to
    [records], in this order, a row for each of its feature classes, for
    each feature class of each of its feature datasets, for each table and
    for each raster, as the listings name them.  Each row carries the
    folder's name, path and modification time and the path of its dataset,
    and the name of the feature dataset for a nested feature class only.
    When an exception cuts the inventory short the rows appended are the
    first of these. *)
Theorem geodatabase_rows_follow_the_listings w dirpath dirname s :
  let r := gdb_body w dirpath dirname s in
  exists rows,
    records (snd r) = records s ++ rows /\
    (row_origin <$> rows) `prefix_of` gdb_origins w dirpath dirname /\
    (fst r = Ok tt -> row_origin <$> rows = gdb_origins w dirpath dirname).
Proof.
  simpl.
  destruct (rows_of_logs (gdb_body w dirpath dirname) s _ _
              (grows_gdb_body w dirpath dirname)
              (origin_gdb_body w dirpath dirname s))
    as (rows & Hr & Hp & Hok).
  exists rows. split; [done|]. split; [done|].
  intros H. apply Hok. by rewrite H.
Qed.

Lemma origin_walk_body w entry s :
  logs origins_of (walk_body w entry) s (entry_origins w entry) (fun _ => True).
Proof.
  destruct entry as [[dirpath dirnames] filenames]. simpl.
  assert (filter (fun d => Is_true (is_gdb_name d)) dirnames
            ≫= gdb_origins w dirpath
          = dirnames ≫= (fun d => if is_gdb_name d
                                  then gdb_origins w dirpath d else []))
    as ->.
  { induction dirnames as [|d l IH]; [done|].
    rewrite bind_cons, filter_cons, <- IH.
    destruct (is_gdb_name d) eqn:Hd; case_decide as Hd'; try done;
      by rewrite Hd in Hd'. }
  apply logs_for_each; [done|]. intros d s0 _.
  destruct (is_gdb_name d); simpl; [apply origin_gdb_body|by apply logs_ret].
Qed.

Lemma inventory_rows_origins w root s rows :
  fst (inventory_geodatabases w root s) = Ok rows ->
  row_origin <$> rows = inventory_origins w root.
Proof.
  intros H. unfold inventory_geodatabases, bind in H. simpl in H.
  match type of H with context [for_each ?l ?b ?s0] =>
    destruct (logs_for_each origins_of b (entry_origins w) (fun _ => True)
                l s0 I (fun x s1 _ => origin_walk_body w x s1))
      as (evs & He & _ & Hok);
    destruct (for_each l b s0) as [[[]|e] s1]; [|done]
  end.
  simpl in *. injection H as <-.
  destruct (Hok eq_refl) as [-> _]. exact He.
Qed.

(** X10.  A completed inventory returns one row per listed dataset of every
    candidate geodatabase, in the order of the walk and of the listings,
    and nothing of what [records] held before. *)
Theorem inventory_rows_follow_the_walk w root s rows :
  fst (inventory_geodatabases w root s) = Ok rows ->
  row_origin <$> rows = inventory_origins w root /\
  length rows = length (inventory_origins w root).
Proof.
  intros H. pose proof (inventory_rows_origins w root s rows H) as Ho.
  split; [done|]. by rewrite <- Ho, length_fmap.
Qed.

Lemma inventory_rows_follow_the_walk_witness :
  row_origin <$> records (snd (walk CatalogScenario.city CatalogScenario.fresh))
  = inventory_origins CatalogScenario.city "D:/gis" /\
  length (records (snd (walk CatalogScenario.city CatalogScenario.fresh)))
  = length (inventory_origins CatalogScenario.city "D:/gis").
Proof.
  apply (inventory_rows_follow_the_walk CatalogScenario.city "D:/gis"
           (snd (print (starting_line CatalogScenario.city) CatalogScenario.fresh))).
  vm_compute. reflexivity.
Defined.

(** X11.  An empty geodatabase adds no row: when its four listings answer with
    nothing, its inventory completes, [records] is as before and the
    workspace is cleared. *)
Theorem empty_geodatabase_adds_no_row w dirpath dirname s :
  (forall k, listed w k (os_path_join w dirpath dirname) = [] /\
             is_ok (arcpy_list w k (Some (os_path_join w dirpath dirname))) = true) ->
  fst (gdb_body w dirpath dirname s) = Ok tt /\
  records (snd (gdb_body w dirpath dirname s)) = records s /\
  workspace (snd (gdb_body w dirpath dirname s)) = None.
Proof.
  intros H.
  assert (forall k, exists o,
            arcpy_list w k (Some (os_path_join w dirpath dirname)) = Ok o /\
            default [] o = []) as H'.
  { intros k. destruct (H k) as [Hl Hok]. unfold listed in Hl.
    destruct (arcpy_list w k (Some (os_path_join w dirpath dirname)));
      [by eexists|done]. }
  destruct (H' ListFeatureClasses) as (o1 & H1 & D1).
  destruct (H' ListDatasets) as (o2 & H2 & D2).
  destruct (H' ListTables) as (o3 & H3 & D3).
  destruct (H' ListRasters) as (o4 & H4 & D4).
  unfold gdb_body, for_in, bind, arcpy_List, print, set_workspace, modify.
  simpl. rewrite H1, D1. simpl. rewrite H2, D2. simpl.
  rewrite H3, D3. simpl. rewrite H4, D4. done.
Qed.

Lemma empty_geodatabase_adds_no_row_witness :
  fst (gdb_body ExtraScenario.empty_gdb "D:/gis" "c.gdb" CatalogScenario.fresh)
  = Ok tt /\
  records (snd (gdb_body ExtraScenario.empty_gdb "D:/gis" "c.gdb"
                  CatalogScenario.fresh)) = [] /\
  workspace (snd (gdb_body ExtraScenario.empty_gdb "D:/gis" "c.gdb"
                    CatalogScenario.fresh)) = None.
Proof.
  apply (empty_geodatabase_adds_no_row ExtraScenario.empty_gdb "D:/gis" "c.gdb"
           CatalogScenario.fresh).
  intros k. by destruct k.
Defined.

(** *** The workspace after the walk *)

Lemma gdb_body_clears w dirpath dirname s s' :
  gdb_body w dirpath dirname s = (Ok tt, s') -> workspace s' = None.
Proof.
  intros H. destruct (trace_gdb_body w dirpath dirname s) as (evs & _ & _ & Hok).
  rewrite H in Hok. by apply Hok.
Qed.

Lemma walk_body_workspace w entry s s' :
  walk_body w entry s = (Ok tt, s') ->
  workspace s' = if decide (entry_candidates w entry = [])
                 then workspace s else None.
Proof.
  destruct entry as [[dirpath dirnames] filenames]. simpl.
  revert s. induction dirnames as [|d l IH]; intros s H.
  - simpl in H. by injection H as <-.
  - simpl in H. unfold bind in H.
    destruct (is_gdb_name d) eqn:Hd; simpl in H.
    + destruct (gdb_body w dirpath d s) as [[[]|e] s1] eqn:Hb; [|done].
      apply gdb_body_clears in Hb. apply IH in H.
      rewrite filter_cons_True by (by rewrite Hd).
      rewrite decide_False by done.
      case_decide; by rewrite H.
    + apply IH in H. rewrite filter_cons_False; [done|].
      rewrite Hd. by intros [].
Qed.

Lemma for_each_walk_workspace w entries s s' :
  for_each entries (walk_body w) s = (Ok tt, s') ->
  workspace s' = if decide (entries ≫= entry_candidates w = [])
                 then workspace s else None.
Proof.
  revert s. induction entries as [|entry l IH]; intros s H.
  - simpl in H. by injection H as <-.
  - simpl in H. unfold bind in H. rewrite bind_cons.
    destruct (walk_body w entry s) as [[[]|e] s1] eqn:Hb; [|done].
    apply walk_body_workspace in Hb. apply IH in H.
    destruct (entry_candidates w entry) as [|c cs].
    + rewrite decide_True in Hb by done. simpl. by rewrite H, Hb.
    + rewrite decide_False in Hb by done. rewrite decide_False by done.
      rewrite H, Hb. by case_decide.
Qed.

(** X12.  A completed inventory leaves the workspace cleared when the walk met a
    candidate geodatabase, and as it found it when the walk met none. *)
Theorem completed_inventory_clears_the_workspace w root s rows :
  fst (inventory_geodatabases w root s) = Ok rows ->
  workspace (snd (inventory_geodatabases w root s))
  = if decide (candidates w root = []) then workspace s else None.
Proof.
  intros H. unfold inventory_geodatabases, bind in *. simpl in *.
  match goal with |- context [for_each ?l ?b ?s0] =>
    pose proof (for_each_walk_workspace w l s0) as Hw;
    destruct (for_each l b s0) as [[[]|e] s1]; [|done]
  end.
  simpl. by rewrite (Hw s1 eq_refl).
Qed.

Lemma completed_inventory_clears_the_workspace_witness :
  workspace (snd (inventory_geodatabases CatalogScenario.city "D:/gis"
                    ExtraScenario.busy))
  = if decide (candidates CatalogScenario.city "D:/gis" = [])
    then Some "D:/elsewhere" else None.
Proof.
  apply (completed_inventory_clears_the_workspace CatalogScenario.city "D:/gis"
           ExtraScenario.busy
           (records (snd (walk CatalogScenario.city CatalogScenario.fresh)))).
  vm_compute. reflexivity.
Defined.

(** *** main *)

(** X13.  An exception that leaves the walk leaves the run: the run raises it
    and no spreadsheet is written. *)
Theorem failed_walk_writes_nothing w s e :
  fst (walk w s) = Raise e ->
  fst (main w s) = Raise e /\
  files (snd (main w s)) = files s.
Proof.
  intros H.
  pose proof (keeps_files_inventory w (ROOT_DIR w)
                (snd (print (starting_line w) s))) as Hf.
  change (files (snd (walk w s)) = files s) in Hf.
  rewrite main_walk.
  destruct (walk w s) as [[rows|e'] s1]; simpl in *; [done|].
  by injection H as ->.
Qed.

Lemma failed_walk_writes_nothing_witness :
  fst (main CatalogScenario.city_broken CatalogScenario.fresh)
  = Raise (ExecuteError "failed to describe") /\
  files (snd (main CatalogScenario.city_broken CatalogScenario.fresh)) = ∅.
Proof.
  apply (failed_walk_writes_nothing CatalogScenario.city_broken
           CatalogScenario.fresh (ExecuteError "failed to describe")).
  vm_compute. reflexivity.
Defined.

(** X14.  When the walk returns records, the spreadsheet has one row per listed
    dataset of the candidate geodatabases: its rows come from the same
    places as the listings name, each once. *)
Theorem spreadsheet_has_a_row_per_dataset w s rows :
  fst (walk w s) = Ok rows ->
  rows <> [] ->
  exists sheet,
    files (snd (main w s)) !! OUTPUT_EXCEL w = Some sheet /\
    row_origin <$> sheet ≡ₚ inventory_origins w (ROOT_DIR w) /\
    length sheet = length (inventory_origins w (ROOT_DIR w)).
Proof.
  intros H Hne.
  pose proof (inventory_rows_origins w (ROOT_DIR w) _ rows H) as Ho.
  rewrite main_walk.
  destruct (walk w s) as [[[|r l]|e] s1]; simpl in H; simplify_eq.
  exists (sort_values (r :: l)). simpl. rewrite lookup_insert_eq.
  assert (sort_values (r :: l) ≡ₚ r :: l) as Hp
    by apply (sort_values_Permutation (r :: l)).
  split; [done|]. split.
  - rewrite <- Ho. by apply fmap_Permutation.
  - rewrite <- Ho, length_fmap. by apply Permutation_length.
Qed.

Lemma spreadsheet_has_a_row_per_dataset_witness :
  exists sheet,
    files (snd (main CatalogScenario.city CatalogScenario.fresh))
      !! "D:/out/inventory.xlsx" = Some sheet /\
    row_origin <$> sheet ≡ₚ inventory_origins CatalogScenario.city "D:/gis" /\
    length sheet = length (inventory_origins CatalogScenario.city "D:/gis").
Proof.
  apply (spreadsheet_has_a_row_per_dataset CatalogScenario.city
           CatalogScenario.fresh
           (records (snd (walk CatalogScenario.city CatalogScenario.fresh))));
    [vm_compute; reflexivity | vm_compute; discriminate].
Defined.

(** X15.  The run writes to the configured spreadsheet path and to no other. *)
Theorem run_writes_the_configured_path_only w s p :
  p <> OUTPUT_EXCEL w ->
  files (snd (main w s)) !! p = files s !! p.
Proof.
  intros Hp.
  pose proof (keeps_files_inventory w (ROOT_DIR w)
                (snd (print (starting_line w) s))) as Hf.
  change (files (snd (walk w s)) = files s) in Hf.
  rewrite main_walk.
  destruct (walk w s) as [[[|r rows]|e'] s1]; simpl in *;
    rewrite ?lookup_insert_ne by done; by rewrite Hf.
Qed.

Lemma run_writes_the_configured_path_only_witness :
  files (snd (main CatalogScenario.city CatalogScenario.fresh))
    !! "D:/out/other.xlsx" = None.
Proof.
  apply (run_writes_the_configured_path_only CatalogScenario.city
           CatalogScenario.fresh "D:/out/other.xlsx").
  discriminate.
Defined.

(** *** The suffix test *)

Lemma endswith_inv s suffix :
  endswith s suffix = true -> exists stem, s = stem +:+ suffix.
Proof.
  induction s as [|a s IH]; simpl; intros H.
  - apply orb_true_iff in H as [H|H]; [|done].
    apply bool_decide_eq_true in H as <-. by exists EmptyString.
  - apply orb_true_iff in H as [H|H].
    + apply bool_decide_eq_true in H as <-. by exists EmptyString.
    + destruct (IH H) as [stem ->]. by exists (String a stem).
Qed.

Lemma lower_app_inv d a b :
  lower d = a +:+ b ->
  exists d1 d2, d = d1 +:+ d2 /\ lower d1 = a /\ lower d2 = b.
Proof.
  revert d. induction a as [|c a IH]; intros d H.
  - by exists EmptyString, d.
  - destruct d as [|c' d]; [done|]. simpl in H. rewrite str_app_cons in H.
    injection H as Hc H. destruct (IH d H) as (d1 & d2 & -> & <- & <-).
    exists (String c' d1), d2. simpl. by rewrite Hc.
Qed.

(** X16.  A directory name passes the test exactly when it ends in the four
    characters [.gdb] written in any mix of upper and lower case. *)
Theorem gdb_name_iff_suffix_in_any_case d :
  is_gdb_name d = true <->
  exists stem ext, d = stem +:+ ext /\ lower ext = ".gdb".
Proof.
  split.
  - intros H. apply endswith_inv in H as [a H].
    apply lower_app_inv in H as (stem & ext & -> & _ & H). by exists stem, ext.
  - intros (stem & ext & -> & H). unfold is_gdb_name.
    rewrite lower_app, H. apply endswith_app.
Qed.

End CatalogExtras.
